(** * Chromebook inventory sync: the fetch engine and the row normalizer

    A shallow embedding of [processes/process_item.py]:
    - [safe_request], the GET with bounded retries and exponential backoff;
    - [get_all_chromebooks], the cursor-driven pagination loop;
    - the loop of [process_item] that turns every raw device into a row;
    - [process_item] itself, over an abstract database layer and token
      fetcher.

    Python values that come out of [resp.json()] are modelled by [pyval];
    the network, the random source and the clock are an abstract [World]
    that the code threads through its calls, and every call to
    [requests.get] and [time.sleep] is logged in a trace of [event]s. *)

From Stdlib Require Import ZArith QArith List String Ascii Bool Lia.
From Stdlib Require Import DecimalString.
Import ListNotations.

Local Open Scope string_scope.
Local Open Scope list_scope.
Local Open Scope Z_scope.

(** ** Python values *)

(** What [json.loads] can produce.  A finite float is represented by the
    rational it denotes; a [dict] keeps its items in insertion order. *)
#[warnings="-register-all"]
Inductive pyval : Type :=
| PNone
| PBool (b : bool)
| PInt (z : Z)
| PFloat (q : Q)
| PStr (s : string)
| PList (l : list pyval)
| PDict (items : list (string * pyval)).

(** The exception classes the code can meet (all below [Exception]). *)
Inductive exn_class : Type :=
| RequestException
| RuntimeError
| IndexError
| KeyError
| TypeError
| AttributeError
| ValueError.

Record exn : Type := Exn { exn_cls : exn_class; exn_msg : string }.

Definition is_RequestException (e : exn) : bool :=
  match exn_cls e with RequestException => true | _ => false end.

(** [bool(v)]: Python truthiness. *)
Definition py_truthy (v : pyval) : bool :=
  match v with
  | PNone => false
  | PBool b => b
  | PInt z => negb (z =? 0)
  | PFloat q => negb (Qnum q =? 0)
  | PStr s => negb (s =? "")%string
  | PList l => match l with [] => false | _ :: _ => true end
  | PDict items => match items with [] => false | _ :: _ => true end
  end.

(** [a or b]. *)
Definition py_or (a b : pyval) : pyval := if py_truthy a then a else b.

(** Lookup in the items of a dict. *)
Fixpoint dict_lookup (items : list (string * pyval)) (k : string) : option pyval :=
  match items with
  | [] => None
  | (k', v) :: rest => if (k' =? k)%string then Some v else dict_lookup rest k
  end.

(** [d.get(k, default)] on the items of a dict. *)
Definition dict_get (items : list (string * pyval)) (k : string) (default : pyval) : pyval :=
  match dict_lookup items k with Some v => v | None => default end.

(** [del d[k]] when the key is there, nothing otherwise. *)
Fixpoint dict_remove (items : list (string * pyval)) (k : string) : list (string * pyval) :=
  match items with
  | [] => []
  | (k', v) :: rest =>
      if (k' =? k)%string then dict_remove rest k else (k', v) :: dict_remove rest k
  end.

(** [v.get(k, default)]: only a dict has the method. *)
Definition py_get (v : pyval) (k : string) (default : pyval) : exn + pyval :=
  match v with
  | PDict items => inr (dict_get items k default)
  | _ => inl (Exn AttributeError "object has no attribute 'get'")
  end.

(** [v[0]]. The keys of a JSON object are strings, so [0] is never one. *)
Definition py_getitem0 (v : pyval) : exn + pyval :=
  match v with
  | PList [] => inl (Exn IndexError "list index out of range")
  | PList (x :: _) => inr x
  | PStr EmptyString => inl (Exn IndexError "string index out of range")
  | PStr (String c _) => inr (PStr (String c EmptyString))
  | PDict _ => inl (Exn KeyError "0")
  | _ => inl (Exn TypeError "object is not subscriptable")
  end.

(** [len(v)]. *)
Definition py_len (v : pyval) : exn + Z :=
  match v with
  | PList l => inr (Z.of_nat (List.length l))
  | PStr s => inr (Z.of_nat (String.length s))
  | PDict items => inr (Z.of_nat (List.length items))
  | _ => inl (Exn TypeError "object has no len()")
  end.

(** The characters of a string, each as a one-character string. *)
Fixpoint str_chars (s : string) : list pyval :=
  match s with
  | EmptyString => []
  | String c rest => PStr (String c EmptyString) :: str_chars rest
  end.

(** [acc.extend(v)]: appends what iterating over [v] yields. *)
Definition py_extend (acc : list pyval) (v : pyval) : exn + list pyval :=
  match v with
  | PList l => inr (acc ++ l)
  | PStr s => inr (acc ++ str_chars s)
  | PDict items => inr (acc ++ map (fun kv => PStr (fst kv)) items)
  | _ => inl (Exn TypeError "object is not iterable")
  end.

(** ** Strings *)

(** [needle in hay]. *)
Fixpoint str_contains (needle hay : string) : bool :=
  String.prefix needle hay ||
  match hay with
  | EmptyString => false
  | String _ rest => str_contains needle rest
  end.

(** [s.replace(old, new)] for a non-empty [old]: left to right, without
    overlap.  [skip] counts the characters of a match still to drop. *)
Fixpoint str_replace_from (old new s : string) (skip : nat) : string :=
  match s with
  | EmptyString => EmptyString
  | String c rest =>
      match skip with
      | S k => str_replace_from old new rest k
      | O =>
          if String.prefix old s
          then (new ++ str_replace_from old new rest (String.length old - 1))%string
          else String c (str_replace_from old new rest O)
      end
  end.

Definition str_replace (old new s : string) : string :=
  str_replace_from old new s O.

(** [str(n)] for an int. *)
Definition str_of_Z (n : Z) : string := NilZero.string_of_int (Z.to_int n).

(** [range(lo, hi)]. *)
Fixpoint range_from (lo : Z) (n : nat) : list Z :=
  match n with
  | O => []
  | S k => lo :: range_from (lo + 1) k
  end.

Definition py_range (lo hi : Z) : list Z := range_from lo (Z.to_nat (hi - lo)).

(** ** HTTP responses, events and the effect monad *)

(** What the code reads of a [requests.Response]: [resp.status_code],
    [resp.text] and the result of [resp.json()]. *)
Record response : Type := Response {
  status_code : Z;
  text : string;
  json : exn + pyval
}.

Definition headers_t : Type := list (string * string).

(** What a call to [requests.get] ends in: a response or an exception. *)
Definition get_outcome : Type := (exn + response)%type.

(** The calls the code makes to the outside, in the order it makes them. *)
Inductive event : Type :=
| EvGet (url : string) (o : get_outcome)
| EvSleep (seconds : Q).

(** The outcomes of the requests of a trace, in order. *)
Fixpoint get_outcomes (tr : list event) : list get_outcome :=
  match tr with
  | [] => []
  | EvGet _ o :: rest => o :: get_outcomes rest
  | EvSleep _ :: rest => get_outcomes rest
  end.

(** The durations slept, in order. *)
Fixpoint sleeps (tr : list event) : list Q :=
  match tr with
  | [] => []
  | EvGet _ _ :: rest => sleeps rest
  | EvSleep d :: rest => d :: sleeps rest
  end.

Definition count_gets (tr : list event) : Z := Z.of_nat (List.length (get_outcomes tr)).
Definition count_sleeps (tr : list event) : Z := Z.of_nat (List.length (sleeps tr)).

(** Every sleep of the trace is directly followed by a request. *)
Fixpoint sleeps_precede_gets (tr : list event) : bool :=
  match tr with
  | [] => true
  | EvGet _ _ :: rest => sleeps_precede_gets rest
  | EvSleep _ :: rest =>
      match rest with
      | EvGet _ _ :: _ => sleeps_precede_gets rest
      | _ => false
      end
  end.

(** The URLs requested, in order. *)
Fixpoint requested_urls (tr : list event) : list string :=
  match tr with
  | [] => []
  | EvGet url _ :: rest => url :: requested_urls rest
  | EvSleep _ :: rest => requested_urls rest
  end.

(** How a piece of code ends: it returns, it raises, or (only for the
    [while True] loop, run with fuel) it is still looping. *)
Inductive outcome (A : Type) : Type :=
| Returned (a : A)
| Raised (e : exn)
| OutOfFuel.

Arguments Returned {A} a.
Arguments Raised {A} e.
Arguments OutOfFuel {A}.

(** ** The three-way classification of an attempt *)

(** The substring of a 403 body that tells a rate limit. *)
Definition rate_limit_marker : string := "rateLimitExceeded".

(** Status in [200,300). *)
Definition success_response (r : response) : bool :=
  (200 <=? status_code r) && (status_code r <? 300).

(** 429, a 403 that carries the marker, or a 5xx. *)
Definition retryable_response (r : response) : bool :=
  (status_code r =? 429)
  || ((status_code r =? 403) && str_contains rate_limit_marker (text r))
  || ((500 <=? status_code r) && (status_code r <? 600)).

(** A retryable outcome: a transport failure or a retryable response. *)
Definition retryable (o : get_outcome) : bool :=
  match o with
  | inl e => is_RequestException e
  | inr r => retryable_response r
  end.

(** A 403 without the marker, or a 4xx other than 429 and 403. *)
Definition terminal_client_error (r : response) : bool :=
  ((status_code r =? 403) && negb (str_contains rate_limit_marker (text r)))
  || ((400 <=? status_code r) && (status_code r <? 500)
      && negb (status_code r =? 429) && negb (status_code r =? 403)).

(** How [safe_request] ends on an outcome it does not retry. *)
Definition final_outcome (o : get_outcome) : outcome response :=
  match o with
  | inl e => Raised e
  | inr r => Returned r
  end.

(** A page as the directory API sends it. *)
Definition page_payload (devices : list pyval) (cursor : option pyval) : pyval :=
  PDict (("chromeosdevices", PList devices) ::
         match cursor with
         | Some c => [("nextPageToken", c)]
         | None => []
         end).

Section Env.

(** The outside world: the server behind [requests.get], the generator
    behind [random.random] and the clock behind [time.sleep]. *)
Variable World : Type.
Variable requests_get : string -> headers_t -> Z -> World -> get_outcome * World.
Variable random_random : World -> Q * World.
Variable time_sleep : Q -> World -> World.

(** [str(v)], as an f-string applies it to a value. *)
Variable py_str : pyval -> string.

(** A computation threads the world and emits events. *)
Definition M (A : Type) : Type := World -> outcome A * World * list event.

Definition ret {A} (a : A) : M A := fun w => (Returned a, w, []).

Definition raise {A} (e : exn) : M A := fun w => (Raised e, w, []).

Definition out_of_fuel {A} : M A := fun w => (OutOfFuel, w, []).

Definition bind {A B} (m : M A) (f : A -> M B) : M B :=
  fun w =>
    match m w with
    | (Returned a, w1, t1) =>
        match f a w1 with (r, w2, t2) => (r, w2, t1 ++ t2) end
    | (Raised e, w1, t1) => (Raised e, w1, t1)
    | (OutOfFuel, w1, t1) => (OutOfFuel, w1, t1)
    end.

(** A pure operation that may raise. *)
Definition lift {A} (r : exn + A) : M A :=
  match r with inl e => raise e | inr a => ret a end.

Local Notation "x <- m ;; k" := (bind m (fun x => k))
  (at level 61, m at next level, right associativity).

(** [requests.get(url, headers=headers, timeout=timeout)], with whatever
    it raises handed to the caller as a value. *)
Definition do_get (url : string) (headers : headers_t) (timeout : Z) : M get_outcome :=
  fun w => match requests_get url headers timeout w with
           | (o, w') => (Returned o, w', [EvGet url o])
           end.

Definition do_random : M Q :=
  fun w => match random_random w with (j, w') => (Returned j, w', []) end.

Definition do_sleep (seconds : Q) : M unit :=
  fun w => (Returned tt, time_sleep seconds w, [EvSleep seconds]).

(** ** [safe_request] *)

Definition exhausted_msg (max_retries : Z) (url : string) : string :=
  ("Failed after " ++ str_of_Z max_retries ++ " attempts: " ++ url)%string.

(** The [for attempt in ...] loop of [safe_request], on the attempts that
    remain, with the current [backoff]. *)
Fixpoint safe_request_loop (url : string) (headers : headers_t) (max_retries timeout : Z)
         (attempts : list Z) (backoff : Z) : M response :=
  match attempts with
  | [] => raise (Exn RuntimeError "safe_request() fell through unexpectedly")
  | attempt :: rest =>
      (* the code below the try statement *)
      let after_try : M response :=
        if attempt =? max_retries
        then raise (Exn RuntimeError (exhausted_msg max_retries url))
        else
          jitter <- do_random ;;
          let sleep_for := (inject_Z backoff + jitter)%Q in
          _ <- do_sleep sleep_for ;;
          safe_request_loop url headers max_retries timeout rest (backoff * 2)
      in
      o <- do_get url headers timeout ;;
      match o with
      | inr resp =>
          let sc := status_code resp in
          if (200 <=? sc) && (sc <? 300) then ret resp
          else if sc =? 429 then after_try
          else if sc =? 403 then
            if str_contains "rateLimitExceeded" (text resp) then after_try
            else ret resp
          else if (400 <=? sc) && (sc <? 500) then ret resp
          else if (500 <=? sc) && (sc <? 600) then after_try
          else ret resp
      | inl e =>
          if is_RequestException e then after_try else raise e
      end
  end.

Definition safe_request (url : string) (headers : headers_t) (max_retries timeout : Z)
  : M response :=
  safe_request_loop url headers max_retries timeout (py_range 1 (max_retries + 1)) 1.

(** ** [get_all_chromebooks] *)

Definition base_url : string :=
  ("https://admin.googleapis.com/admin/directory/v1/" ++
   "customer/my_customer/devices/chromeos?projection=FULL&maxResults=300")%string.

Definition request_headers (access_token : string) : headers_t :=
  [("Authorization", ("Bearer " ++ access_token)%string); ("Accept", "application/json")].

Definition page_url (next_page : pyval) : string :=
  (base_url ++ (if py_truthy next_page then "&pageToken=" ++ py_str next_page else ""))%string.

(** The [while True] loop; one unit of [fuel] per iteration. *)
Fixpoint get_all_chromebooks_loop (fuel : nat) (headers : headers_t)
         (all_devices : list pyval) (next_page : pyval) (page_number : Z)
  : M (list pyval) :=
  match fuel with
  | O => out_of_fuel
  | S fuel' =>
      let url := page_url next_page in
      resp <- safe_request url headers 5 60 ;;
      payload <- lift (json resp) ;;
      page_devices <- lift (py_get payload "chromeosdevices" (PList [])) ;;
      (* print(f"first device on page:\n{page_devices[0]}") *)
      _ <- lift (py_getitem0 page_devices) ;;
      (* logger.info(f"Fetched page ... ({len(page_devices)} devices)") *)
      _ <- lift (py_len page_devices) ;;
      all_devices' <- lift (py_extend all_devices page_devices) ;;
      next_page' <- lift (py_get payload "nextPageToken" PNone) ;;
      if negb (py_truthy next_page') then ret all_devices'
      else get_all_chromebooks_loop fuel' headers all_devices' next_page' (page_number + 1)
  end.

Definition get_all_chromebooks (fuel : nat) (access_token : string) : M (list pyval) :=
  get_all_chromebooks_loop fuel (request_headers access_token) [] PNone 1.

(** The server answers the coming requests of the collector with the pages
    [pages], each carrying a cursor, and then with a last page that
    carries none; every answer is a success. *)
Fixpoint serves_pages (headers : headers_t) (w : World) (next_page : pyval)
         (pages : list (list pyval * pyval)) (last_devices : list pyval)
         (w_end : World) : Prop :=
  match pages with
  | [] =>
      exists r,
        requests_get (page_url next_page) headers 60 w = (inr r, w_end)
        /\ success_response r = true
        /\ json r = inr (page_payload last_devices None)
  | (page_devices, cursor) :: rest =>
      exists r w1,
        requests_get (page_url next_page) headers 60 w = (inr r, w1)
        /\ success_response r = true
        /\ json r = inr (page_payload page_devices (Some cursor))
        /\ serves_pages headers w1 cursor rest last_devices w_end
  end.

End Env.

Arguments ret {World A} a w.
Arguments raise {World A} e w.
Arguments out_of_fuel {World A} w.
Arguments bind {World A B} m f w.
Arguments lift {World A} r w.
Arguments do_get {World} requests_get url headers timeout w.
Arguments do_random {World} random_random w.
Arguments do_sleep {World} time_sleep seconds w.
Arguments safe_request_loop {World} requests_get random_random time_sleep
  url headers max_retries timeout attempts backoff w.
Arguments safe_request {World} requests_get random_random time_sleep
  url headers max_retries timeout w.
Arguments get_all_chromebooks_loop {World} requests_get random_random time_sleep py_str
  fuel headers all_devices next_page page_number w.
Arguments get_all_chromebooks {World} requests_get random_random time_sleep py_str
  fuel access_token w.
Arguments serves_pages {World} requests_get py_str headers w next_page pages last_devices w_end.

(** What one page does to the accumulator, and the cursor it leaves: the
    body of the loop after the request. *)
Definition page_step (all_devices : list pyval) (resp : response)
  : exn + (list pyval * pyval) :=
  match json resp with
  | inl e => inl e
  | inr payload =>
      match py_get payload "chromeosdevices" (PList []) with
      | inl e => inl e
      | inr page_devices =>
          match py_getitem0 page_devices with
          | inl e => inl e
          | inr _ =>
              match py_len page_devices with
              | inl e => inl e
              | inr _ =>
                  match py_extend all_devices page_devices with
                  | inl e => inl e
                  | inr all_devices' =>
                      match py_get payload "nextPageToken" PNone with
                      | inl e => inl e
                      | inr next_page' => inr (all_devices', next_page')
                      end
                  end
              end
          end
      end
  end.

(** How the collection ends on a page that leaves no cursor. *)
Definition end_of_collection (all_devices : list pyval) (page_devices : pyval)
  : outcome (list pyval) :=
  match py_getitem0 page_devices with
  | inl e => Raised e
  | inr _ =>
      match py_extend all_devices page_devices with
      | inl e => Raised e
      | inr all_devices' => Returned all_devices'
      end
  end.

(** A URL the collector may request: the base query, alone or followed by
    a cursor that is truthy. *)
Definition page_url_shape (py_str : pyval -> string) (u : string) : Prop :=
  u = base_url \/
  exists c, py_truthy c = true /\ u = (base_url ++ "&pageToken=" ++ py_str c)%string.

(** The device lists of all pages, one after the other. *)
Definition all_devices_of (pages : list (list pyval * pyval)) (last_devices : list pyval)
  : list pyval :=
  List.concat (map fst pages) ++ last_devices.

(** ** The rows built by [process_item] *)

(** [datetime.date] and [datetime.datetime] (the offset in seconds, when
    the value is aware). *)
Record date : Type := Date { year : Z; month : Z; day : Z }.

Record datetime : Type := Datetime {
  dt_date : date;
  dt_hour : Z;
  dt_minute : Z;
  dt_second : Z;
  dt_microsecond : Z;
  dt_utcoffset : option Z
}.

(** One tuple of [tvp_rows]. *)
Record row : Type := Row {
  device_id : pyval;
  serial_number : pyval;
  mac_address : pyval;
  model : pyval;
  status : pyval;
  last_sync_date : option date;
  org_unit : pyval
}.

Section Normalizer.

(** [datetime.fromisoformat], of the Python standard library. *)
Variable fromisoformat : string -> exn + datetime.

(** The body of the [try]:
    [datetime.fromisoformat(last_sync_raw.replace("Z", "+00:00")).date()].
    Only a [str] has [replace]. *)
Definition parse_last_sync (last_sync_raw : pyval) : exn + date :=
  match last_sync_raw with
  | PStr s =>
      match fromisoformat (str_replace "Z" "+00:00" s) with
      | inr parsed_dt => inr (dt_date parsed_dt)
      | inl e => inl e
      end
  | _ => inl (Exn AttributeError "object has no attribute 'replace'")
  end.

(** [last_sync_date] after the [if last_sync_raw: try ... except Exception: pass]. *)
Definition last_sync_of (last_sync_raw : pyval) : option date :=
  if py_truthy last_sync_raw then
    match parse_last_sync last_sync_raw with
    | inr d => Some d
    | inl _ => None
    end
  else None.

(** The body of [for d in devices]: the tuple appended to [tvp_rows].
    [d.get] exists only on a dict. *)
Definition process_item_row (d : pyval) : exn + row :=
  match d with
  | PDict items =>
      let last_sync_raw := dict_get items "lastSync" PNone in
      let last_sync_date := last_sync_of last_sync_raw in
      inr {| device_id := dict_get items "deviceId" PNone;
             serial_number := dict_get items "serialNumber" PNone;
             mac_address := py_or (dict_get items "macAddress" PNone) PNone;
             model := py_or (dict_get items "model" PNone) PNone;
             status := dict_get items "status" PNone;
             last_sync_date := last_sync_date;
             org_unit := dict_get items "orgUnitPath" PNone |}
  | _ => inl (Exn AttributeError "object has no attribute 'get'")
  end.

(** The whole loop: [tvp_rows] after [for d in devices]. *)
Fixpoint process_item_rows (devices : list pyval) (tvp_rows : list row) : exn + list row :=
  match devices with
  | [] => inr tvp_rows
  | d :: rest =>
      match process_item_row d with
      | inl e => inl e
      | inr r => process_item_rows rest (tvp_rows ++ [r])
      end
  end.

End Normalizer.

(** [lastSync] gives no date: the key is absent, the value is not a
    string, the string is empty, or the parser rejects it. *)
Definition timestamp_unusable (fromisoformat : string -> exn + datetime)
           (raw : option pyval) : Prop :=
  match raw with
  | None => True
  | Some (PStr s) =>
      s = "" \/ exists e, fromisoformat (str_replace "Z" "+00:00" s) = inl e
  | Some _ => True
  end.

(** Two rows agree on every field but [last_sync_date]. *)
Definition same_but_last_sync (r1 r2 : row) : Prop :=
  device_id r1 = device_id r2 /\ serial_number r1 = serial_number r2 /\
  mac_address r1 = mac_address r2 /\ model r1 = model r2 /\
  status r1 = status r2 /\ org_unit r1 = org_unit r2.

(** ** A scripted world, to run the code on concrete inputs *)

(** The outcomes of the coming calls to [requests.get] and the values of
    the coming calls to [random.random]. *)
Record script : Type := Script {
  responses : list get_outcome;
  jitters : list Q
}.

Definition script_get (url : string) (headers : headers_t) (timeout : Z) (w : script)
  : get_outcome * script :=
  match responses w with
  | [] => (inl (Exn RequestException "connection refused"), w)
  | o :: rest => (o, {| responses := rest; jitters := jitters w |})
  end.

Definition script_random (w : script) : Q * script :=
  match jitters w with
  | [] => (0%Q, w)
  | j :: rest => (j, {| responses := responses w; jitters := rest |})
  end.

Definition script_sleep (seconds : Q) (w : script) : script := w.

(** [str] on the cursors of the examples; a truthy value never prints as
    the empty string. *)
Definition script_str (v : pyval) : string :=
  match v with
  | PStr s => s
  | PNone => "None"
  | PBool true => "True"
  | PBool false => "False"
  | _ => "<object>"
  end.

Definition run_safe_request (url : string) (headers : headers_t) (max_retries timeout : Z)
  : script -> outcome response * script * list event :=
  safe_request script_get script_random script_sleep url headers max_retries timeout.

Definition run_get_all_chromebooks (fuel : nat) (access_token : string)
  : script -> outcome (list pyval) * script * list event :=
  get_all_chromebooks script_get script_random script_sleep script_str fuel access_token.

(** A 2xx response whose body decodes to [payload]. *)
Definition ok_response (payload : pyval) : response :=
  {| status_code := 200; text := ""; json := inr payload |}.

(** A response with a status and a body that is not JSON. *)
Definition plain_response (sc : Z) (body : string) : response :=
  {| status_code := sc; text := body;
     json := inl (Exn RequestException "Expecting value") |}.

Definition device (id : string) : pyval := PDict [("deviceId", PStr id)].

(** ** A parser for the examples *)

Definition digit_of (c : ascii) : option Z :=
  let n := Z.of_nat (nat_of_ascii c) in
  if (48 <=? n) && (n <=? 57) then Some (n - 48) else None.

(** Reads [n] decimal digits. *)
Fixpoint take_digits (n : nat) (s : string) (acc : Z) : option (Z * string) :=
  match n with
  | O => Some (acc, s)
  | S k =>
      match s with
      | EmptyString => None
      | String c rest =>
          match digit_of c with
          | Some d => take_digits k rest (acc * 10 + d)
          | None => None
          end
      end
  end.

Definition expect (c : ascii) (s : string) : option string :=
  match s with
  | String c' rest => if Ascii.eqb c c' then Some rest else None
  | EmptyString => None
  end.

Definition in_range (lo x hi : Z) : bool := (lo <=? x) && (x <=? hi).

Local Notation "'let?' x := e 'in' k" :=
  (match e with Some x => k | None => None end)
  (at level 10, x pattern, e at level 200, k at level 200).

Definition parse_date (s : string) : option (date * string) :=
  let? (y, s) := take_digits 4 s 0 in
  let? s := expect "-" s in
  let? (m, s) := take_digits 2 s 0 in
  let? s := expect "-" s in
  let? (d, s) := take_digits 2 s 0 in
  if in_range 1 y 9999 && in_range 1 m 12 && in_range 1 d 31
  then Some ({| year := y; month := m; day := d |}, s)
  else None.

Definition parse_time (s : string) : option (Z * Z * Z * string) :=
  let? s := expect "T" s in
  let? (hh, s) := take_digits 2 s 0 in
  let? s := expect ":" s in
  let? (mi, s) := take_digits 2 s 0 in
  let? s := expect ":" s in
  let? (ss, s) := take_digits 2 s 0 in
  if in_range 0 hh 23 && in_range 0 mi 59 && in_range 0 ss 59
  then Some (hh, mi, ss, s)
  else None.

Definition parse_offset (s : string) : option Z :=
  let? s := expect "+" s in
  let? (oh, s) := take_digits 2 s 0 in
  let? s := expect ":" s in
  let? (om, s) := take_digits 2 s 0 in
  match s with
  | EmptyString =>
      if in_range 0 oh 23 && in_range 0 om 59 then Some (oh * 3600 + om * 60) else None
  | _ => None
  end.

(** Accepts [YYYY-MM-DD], [YYYY-MM-DDThh:mm:ss] and [YYYY-MM-DDThh:mm:ss+hh:mm],
    a part of what [datetime.fromisoformat] accepts. *)
Definition parse_iso_subset (s : string) : option datetime :=
  let? (the_date, s) := parse_date s in
  match s with
  | EmptyString => Some (Datetime the_date 0 0 0 0 None)
  | _ =>
      let? (hh, mi, ss, s) := parse_time s in
      match s with
      | EmptyString => Some (Datetime the_date hh mi ss 0 None)
      | _ =>
          let? off := parse_offset s in
          Some (Datetime the_date hh mi ss 0 (Some off))
      end
  end.

Definition iso_subset (s : string) : exn + datetime :=
  match parse_iso_subset s with
  | Some dt => inr dt
  | None => inl (Exn ValueError "Invalid isoformat string")
  end.

(** ** Sample inputs *)

Definition sample_url : string := "https://directory.example/devices".

Definition unavailable_503 : response := plain_response 503 "Service Unavailable".

Definition forbidden_403 : response := plain_response 403 "insufficient permissions".

Definition rate_limited_403 : response :=
  plain_response 403 "{error: {errors: [{reason: rateLimitExceeded}]}}".

Definition one_device_page : response := ok_response (page_payload [device "d1"] None).

(** Two 503s, then a success. *)
Definition flaky_script : script :=
  {| responses := [inr unavailable_503; inr unavailable_503; inr one_device_page];
     jitters := [1 # 2; 1 # 4]%Q |}.

(** A 503, then a 403 without the marker, then a page never asked for. *)
Definition forbidden_script : script :=
  {| responses := [inr unavailable_503; inr forbidden_403; inr one_device_page];
     jitters := [1 # 2]%Q |}.

(** A 403 with the marker, then a success. *)
Definition rate_limited_script : script :=
  {| responses := [inr rate_limited_403; inr one_device_page];
     jitters := [3 # 4]%Q |}.

(** A server that is down: every request ends in a 503. *)
Definition down_script : script :=
  {| responses := [inr unavailable_503; inr unavailable_503];
     jitters := [1 # 2]%Q |}.

(** A page holding no device, with a cursor; then a page with one device. *)
Definition empty_first_page_script : script :=
  {| responses := [inr (ok_response (page_payload [] (Some (PStr "c1"))));
                   inr one_device_page];
     jitters := [] |}.

(** An inventory without devices: one page, no device, no cursor. *)
Definition no_devices_script : script :=
  {| responses := [inr (ok_response (page_payload [] None))]; jitters := [] |}.

(** A page of two devices whose cursor is the empty string. *)
Definition empty_token_page : response :=
  ok_response (page_payload [device "d1"; device "d2"] (Some (PStr ""))).

Definition empty_token_script : script :=
  {| responses := [inr empty_token_page; inr one_device_page]; jitters := [] |}.

(** Two pages: two devices and the cursor [X], then one device. *)
Definition two_pages_script : script :=
  {| responses := [inr (ok_response (page_payload [device "d1"; device "d2"] (Some (PStr "X"))));
                   inr (ok_response (page_payload [device "d3"] None))];
     jitters := [] |}.

(** A device with a timestamp, an empty serial number and an empty MAC
    address. *)
Definition sample_device : list (string * pyval) :=
  [("deviceId", PStr "d1"); ("serialNumber", PStr ""); ("macAddress", PStr "");
   ("model", PStr "Chromebook 14"); ("lastSync", PStr "2024-05-17T08:30:00Z")].

(** The same device with a timestamp that is no date. *)
Definition sample_device_bad_sync : list (string * pyval) :=
  [("deviceId", PStr "d1"); ("serialNumber", PStr "");  ("macAddress", PStr "");
   ("model", PStr "Chromebook 14"); ("lastSync", PStr "yesterday")].

(** ** More on the outcomes of an attempt *)

(** A status that is neither 2xx, 4xx nor 5xx. *)
Definition unexpected_status (r : response) : bool :=
  (status_code r <? 200)
  || ((300 <=? status_code r) && (status_code r <? 400))
  || (600 <=? status_code r).

(** The time slept during a run, in seconds. *)
Definition total_sleep (tr : list event) : Q :=
  fold_right Qplus 0%Q (sleeps tr).

(** ** More on the pages a server sends *)

Section Pages.

Variable World : Type.
Variable requests_get : string -> headers_t -> Z -> World -> get_outcome * World.
Variable py_str : pyval -> string.

(** The server answers the coming requests of the collector with the pages
    [pages], each a success carrying a cursor; the world is then [w_end] and
    the cursor in hand [next_end]. *)
Fixpoint serves_prefix (headers : headers_t) (w : World) (next_page : pyval)
         (pages : list (list pyval * pyval)) (w_end : World) (next_end : pyval) : Prop :=
  match pages with
  | [] => w_end = w /\ next_end = next_page
  | (page_devices, cursor) :: rest =>
      exists r w1,
        requests_get (page_url py_str next_page) headers 60 w = (inr r, w1)
        /\ success_response r = true
        /\ json r = inr (page_payload page_devices (Some cursor))
        /\ serves_prefix headers w1 cursor rest w_end next_end
  end.

(** The server never stops: whatever the request, it answers with a
    success page that holds a device and carries a truthy cursor. *)
Definition endless_server (headers : headers_t) : Prop :=
  forall url w,
    exists r w' d ds c,
      requests_get url headers 60 w = (inr r, w')
      /\ success_response r = true
      /\ json r = inr (page_payload (d :: ds) (Some c))
      /\ py_truthy c = true.

End Pages.

Arguments serves_prefix {World} requests_get py_str headers w next_page pages w_end next_end.
Arguments endless_server {World} requests_get headers.

(** ** [process_item] *)

(** [v[k]] for a string key. *)
Definition py_getitem_key (v : pyval) (k : string) : exn + pyval :=
  match v with
  | PDict items =>
      match dict_lookup items k with
      | Some x => inr x
      | None => inl (Exn KeyError k)
      end
  | PList _ => inl (Exn TypeError "list indices must be integers or slices, not str")
  | PStr _ => inl (Exn TypeError "string indices must be integers, not 'str'")
  | _ => inl (Exn TypeError "object is not subscriptable")
  end.

Definition is_dict (v : pyval) : bool :=
  match v with PDict _ => true | _ => false end.

Definition SCOPES : list string :=
  ["https://www.googleapis.com/auth/admin.directory.device.chromeos.readonly"].

Definition nl : string := String (ascii_of_nat 10) EmptyString.

(** The three statements sent to the database. *)
Definition create_temp_table_sql : string :=
  (nl ++
   "            CREATE TABLE #ChromebookTemp (" ++
   nl ++
   "                device_id NVARCHAR(300) NOT NULL," ++
   nl ++
   "                serial_number NVARCHAR(300) NULL," ++
   nl ++
   "                mac_address NVARCHAR(300) NULL," ++
   nl ++
   "                model NVARCHAR(300) NULL," ++
   nl ++
   "                status NVARCHAR(50) NULL," ++
   nl ++
   "                last_sync DATE NULL," ++
   nl ++
   "                org_unit NVARCHAR(300) NULL" ++
   nl ++
   "            );" ++
   nl ++
   "        ")%string.

Definition insert_rows_sql : string :=
  (nl ++
   "            INSERT INTO #ChromebookTemp" ++
   nl ++
   "                (device_id, serial_number, mac_address, model, status, last_sync, org_unit)" ++
   nl ++
   "            VALUES (?, ?, ?, ?, ?, ?, ?)" ++
   nl ++
   "        ")%string.

Definition upsert_procedure_sql : string := "EXEC rpa.sp_upsert_chromebooks".

(** What [process_item] can raise: an exception of the code below it, one
    of its own two, or whatever the database layer and the token fetcher
    raise. *)
Inductive item_exn : Type :=
| AssertionError (msg : string)
| UnboundLocalError (name : string)
| PyExn (e : exn)
| ExternalError (cls msg : string).

(** The calls [process_item] makes to the outside, in order. *)
Inductive item_event : Type :=
| ItNew (db_env : string) (commit : bool)
| ItEnter (r : option item_exn)
| ItExit (exc : option item_exn) (r : item_exn + bool)
| ItGetConstant (name : string)
| ItToken (p12_key_path : string) (scopes : list string) (app_email admin_email : pyval)
| ItNet (e : event)
| ItCursor
| ItSetFastExecutemany (b : bool)
| ItExecute (sql : string) (r : option item_exn)
| ItExecuteMany (sql : string) (rows : list row) (r : option item_exn).

(** The statements executed, in order. *)
Fixpoint statements (tr : list item_event) : list item_event :=
  match tr with
  | [] => []
  | ItExecute sql r :: rest => ItExecute sql r :: statements rest
  | ItExecuteMany sql rows r :: rest => ItExecuteMany sql rows r :: statements rest
  | _ :: rest => statements rest
  end.

(** The requests and sleeps of the collector, in order. *)
Fixpoint net_events (tr : list item_event) : list event :=
  match tr with
  | [] => []
  | ItNet e :: rest => e :: net_events rest
  | _ :: rest => net_events rest
  end.

(** The exceptions handed to [__exit__], in order. *)
Fixpoint exit_excs (tr : list item_event) : list (option item_exn) :=
  match tr with
  | [] => []
  | ItExit exc _ :: rest => exc :: exit_excs rest
  | _ :: rest => exit_excs rest
  end.

(** The sessions entered ([__enter__] returned) and the calls of
    [__exit__]. *)
Fixpoint entered (tr : list item_event) : nat :=
  match tr with
  | [] => O
  | ItEnter None :: rest => S (entered rest)
  | _ :: rest => entered rest
  end.

Fixpoint exited (tr : list item_event) : nat :=
  match tr with
  | [] => O
  | ItExit _ _ :: rest => S (exited rest)
  | _ :: rest => exited rest
  end.

(** The statements of a run follow the protocol for [rows]: the temp table,
    the bulk insert of [rows], the stored procedure; each one only after
    the one before it succeeded, and the exception of one that failed is
    handed to [__exit__]. *)
Definition follows_protocol (rows : list row) (tr : list item_event) : Prop :=
  statements tr = []
  \/ (exists e, statements tr = [ItExecute create_temp_table_sql (Some e)]
                /\ In (Some e) (exit_excs tr))
  \/ (exists e, statements tr = [ItExecute create_temp_table_sql None;
                                 ItExecuteMany insert_rows_sql rows (Some e)]
                /\ In (Some e) (exit_excs tr))
  \/ (exists e, statements tr = [ItExecute create_temp_table_sql None;
                                 ItExecuteMany insert_rows_sql rows None;
                                 ItExecute upsert_procedure_sql (Some e)]
                /\ In (Some e) (exit_excs tr))
  \/ statements tr = [ItExecute create_temp_table_sql None;
                      ItExecuteMany insert_rows_sql rows None;
                      ItExecute upsert_procedure_sql None].

(** How a run of [process_item] ends. *)
Inductive item_outcome (A : Type) : Type :=
| Done (a : A)
| Failed (e : item_exn)
| StillFetching.

Arguments Done {A} a.
Arguments Failed {A} e.
Arguments StillFetching {A}.

Section Item.

Variable World : Type.
Variable requests_get : string -> headers_t -> Z -> World -> get_outcome * World.
Variable random_random : World -> Q * World.
Variable time_sleep : Q -> World -> World.
Variable py_str : pyval -> string.
Variable fromisoformat : string -> exn + datetime.

(** [os.getenv]. *)
Variable os_getenv : string -> World -> option string.

(** The database layer: [RPAConnection(db_env=..., commit=...)], its
    [__enter__] and [__exit__] (which may swallow the exception it is
    handed), [get_constant], the [cursor] attribute and the cursor's
    [fast_executemany], [execute] and [executemany]. *)
Variable Conn : Type.
Variable Cursor : Type.
Variable rpa_new : string -> bool -> World -> (item_exn + Conn) * World.
Variable rpa_enter : Conn -> World -> (item_exn + Conn) * World.
Variable rpa_exit : Conn -> option item_exn -> World -> (item_exn + bool) * World.
Variable rpa_get_constant : Conn -> string -> World -> (item_exn + pyval) * World.
Variable rpa_cursor : Conn -> World -> (item_exn + Cursor) * World.
Variable cursor_set_fast_executemany : Cursor -> bool -> World -> option item_exn * World.
Variable cursor_execute : Cursor -> string -> World -> option item_exn * World.
Variable cursor_executemany :
  Cursor -> string -> list row -> World -> option item_exn * World.

(** [GoogleTokenFetcher(p12, scopes, app, admin).get_google_token().json()]. *)
Variable google_token :
  string -> list string -> pyval -> pyval -> World -> (item_exn + pyval) * World.

Definition IM (A : Type) : Type := World -> item_outcome A * World * list item_event.

Definition iret {A} (a : A) : IM A := fun w => (Done a, w, []).

Definition ifail {A} (e : item_exn) : IM A := fun w => (Failed e, w, []).

Definition ibind {A B} (m : IM A) (f : A -> IM B) : IM B :=
  fun w =>
    match m w with
    | (Done a, w1, t1) =>
        match f a w1 with (r, w2, t2) => (r, w2, t1 ++ t2) end
    | (Failed e, w1, t1) => (Failed e, w1, t1)
    | (StillFetching, w1, t1) => (StillFetching, w1, t1)
    end.

Local Notation "x <- m ;; k" := (ibind m (fun x => k))
  (at level 61, m at next level, right associativity).

(** An external call that returns a value or raises. *)
Definition icall {A} (call : World -> (item_exn + A) * World) (ev : item_event) : IM A :=
  fun w =>
    match call w with
    | (inr a, w') => (Done a, w', [ev])
    | (inl e, w') => (Failed e, w', [ev])
    end.

(** An operation of the code below that may raise. *)
Definition ilift {A} (r : exn + A) : IM A :=
  match r with inl e => ifail (PyExn e) | inr a => iret a end.

(** A call into the fetch engine. *)
Definition inet {A} (m : M World A) : IM A :=
  fun w =>
    match m w with
    | (Returned a, w', tr) => (Done a, w', map ItNet tr)
    | (Raised e, w', tr) => (Failed (PyExn e), w', map ItNet tr)
    | (OutOfFuel, w', tr) => (StillFetching, w', map ItNet tr)
    end.

(** A statement on the cursor. *)
Definition iexecute (cursor : Cursor) (sql : string) : IM unit :=
  fun w =>
    match cursor_execute cursor sql w with
    | (None, w') => (Done tt, w', [ItExecute sql None])
    | (Some e, w') => (Failed e, w', [ItExecute sql (Some e)])
    end.

Definition iexecutemany (cursor : Cursor) (sql : string) (rows : list row) : IM unit :=
  fun w =>
    match cursor_executemany cursor sql rows w with
    | (None, w') => (Done tt, w', [ItExecuteMany sql rows None])
    | (Some e, w') => (Failed e, w', [ItExecuteMany sql rows (Some e)])
    end.

Definition iset_fast (cursor : Cursor) (b : bool) : IM unit :=
  fun w =>
    match cursor_set_fast_executemany cursor b w with
    | (None, w') => (Done tt, w', [ItSetFastExecutemany b])
    | (Some e, w') => (Failed e, w', [ItSetFastExecutemany b])
    end.

(** [with mgr as target: body].  [__exit__] is handed the exception of the
    body, if any; the exception goes on unless [__exit__] returns a true
    value, and an exception of [__exit__] itself takes its place.  [None]
    is the case of a swallowed exception. *)
Definition iwith {A} (mgr : Conn) (body : Conn -> IM A) : IM (option A) :=
  fun w =>
    match rpa_enter mgr w with
    | (inl e, w1) => (Failed e, w1, [ItEnter (Some e)])
    | (inr target, w1) =>
        match body target w1 with
        | (Done a, w2, t) =>
            match rpa_exit mgr None w2 with
            | (inl e', w3) => (Failed e', w3, ItEnter None :: t ++ [ItExit None (inl e')])
            | (inr b, w3) => (Done (Some a), w3, ItEnter None :: t ++ [ItExit None (inr b)])
            end
        | (Failed e, w2, t) =>
            match rpa_exit mgr (Some e) w2 with
            | (inl e', w3) => (Failed e', w3, ItEnter None :: t ++ [ItExit (Some e) (inl e')])
            | (inr true, w3) => (Done None, w3, ItEnter None :: t ++ [ItExit (Some e) (inr true)])
            | (inr false, w3) => (Failed e, w3, ItEnter None :: t ++ [ItExit (Some e) (inr false)])
            end
        | (StillFetching, w2, t) => (StillFetching, w2, ItEnter None :: t)
        end
    end.

(** The first [with] block of [process_item]: the two constants read
    under [with rpa_conn:]. *)
Definition load_emails (rpa_conn : Conn) : IM (option (pyval * pyval)) :=
  iwith rpa_conn (fun _ =>
    c_admin <- icall (rpa_get_constant rpa_conn "google_dlp_admin_email")
                     (ItGetConstant "google_dlp_admin_email") ;;
    admin_email <- ilift (py_get c_admin "value" (PStr "")) ;;
    c_app <- icall (rpa_get_constant rpa_conn "google_dlp_app_email")
                   (ItGetConstant "google_dlp_app_email") ;;
    app_email <- ilift (py_get c_app "value" (PStr "")) ;;
    iret (admin_email, app_email)).

(** The second [with] block: the temp table, the bulk insert and the
    stored procedure, under [with ... as conn:]. *)
Definition upsert_rows (mgr : Conn) (tvp_rows : list row) : IM (option unit) :=
  iwith mgr (fun conn =>
    cursor <- icall (rpa_cursor conn) ItCursor ;;
    _ <- iset_fast cursor true ;;
    _ <- iexecute cursor create_temp_table_sql ;;
    _ <- iexecutemany cursor insert_rows_sql tvp_rows ;;
    iexecute cursor upsert_procedure_sql).

(** [process_item(item_data, item_reference)]; [fuel] bounds the pages of
    the collector. *)
Definition process_item (fuel : nat) (item_data item_reference : pyval) : IM unit :=
  if negb (py_truthy item_data) then ifail (AssertionError "Item data is required")
  else if negb (py_truthy item_reference)
  then ifail (AssertionError "Item reference is required")
  else
    fun w =>
      let p12_key_path := os_getenv "GOOGLE_DLP_KEY" w in
      match p12_key_path with
      | None | Some EmptyString =>
          ifail (PyExn (Exn RuntimeError
                          "Environment variable GOOGLE_DLP_KEY is not set")) w
      | Some p12_key_path =>
          (rpa_conn <- icall (rpa_new "PROD" false) (ItNew "PROD" false) ;;
           emails <- load_emails rpa_conn ;;
           match emails with
           | None =>
               (* the block raised and [__exit__] swallowed it *)
               ifail (UnboundLocalError "app_email")
           | Some (admin_email, app_email) =>
               token <- icall (google_token p12_key_path SCOPES app_email admin_email)
                              (ItToken p12_key_path SCOPES app_email admin_email) ;;
               access_token <- ilift (py_getitem_key token "access_token") ;;
               devices <- inet (get_all_chromebooks requests_get random_random time_sleep
                                  py_str fuel (py_str access_token)) ;;
               tvp_rows <- ilift (process_item_rows fromisoformat devices []) ;;
               mgr <- icall (rpa_new "PROD" true) (ItNew "PROD" true) ;;
               _ <- upsert_rows mgr tvp_rows ;;
               iret tt
           end) w
      end.

End Item.

(** ** More worlds to run the code in *)

(** A generator that always draws one half. *)
Definition steady_random (w : script) : Q * script := ((1 # 2)%Q, w).

(** A server that answers every request with the same page, which holds
    one device and carries a cursor. *)
Definition endless_page : response :=
  ok_response (page_payload [device "d1"] (Some (PStr "next"))).

Definition endless_get (url : string) (headers : headers_t) (timeout : Z) (w : unit)
  : get_outcome * unit :=
  (inr endless_page, w).

Definition endless_random (w : unit) : Q * unit := ((1 # 2)%Q, w).

Definition endless_sleep (seconds : Q) (w : unit) : unit := w.

(** A 404 whose body is a JSON error object. *)
Definition not_found_404 : response :=
  {| status_code := 404;
     text := "{error: {code: 404}}";
     json := inr (PDict [("error", PDict [("code", PInt 404)])]) |}.

Definition not_found_script : script :=
  {| responses := [inr not_found_404]; jitters := [] |}.

(** A page with two devices and the cursor [X], then a server that is
    down. *)
Definition page_then_down_script : script :=
  {| responses := [inr (ok_response (page_payload [device "d1"; device "d2"]
                                                  (Some (PStr "X"))));
                   inr unavailable_503; inr unavailable_503; inr unavailable_503;
                   inr unavailable_503; inr unavailable_503];
     jitters := [] |}.

(** The world of [process_item] in the examples: the environment variable,
    the scripted server, and whether the bulk insert fails.  The database
    layer and the token fetcher otherwise succeed, and [__exit__] never
    swallows. *)
Record item_world : Type := ItemWorld {
  env_key : option string;
  net : script;
  insert_fails : bool
}.

Definition with_net (w : item_world) (n : script) : item_world :=
  {| env_key := env_key w; net := n; insert_fails := insert_fails w |}.

Definition iw_getenv (name : string) (w : item_world) : option string :=
  if (name =? "GOOGLE_DLP_KEY")%string then env_key w else None.

Definition iw_get (url : string) (headers : headers_t) (timeout : Z) (w : item_world)
  : get_outcome * item_world :=
  match script_get url headers timeout (net w) with
  | (o, n) => (o, with_net w n)
  end.

Definition iw_random (w : item_world) : Q * item_world :=
  match script_random (net w) with
  | (j, n) => (j, with_net w n)
  end.

Definition iw_sleep (seconds : Q) (w : item_world) : item_world := w.

Definition iw_new (db_env : string) (commit : bool) (w : item_world)
  : (item_exn + bool) * item_world :=
  (inr commit, w).

Definition iw_enter (c : bool) (w : item_world) : (item_exn + bool) * item_world :=
  (inr c, w).

Definition iw_exit (c : bool) (exc : option item_exn) (w : item_world)
  : (item_exn + bool) * item_world :=
  (inr false, w).

Definition iw_get_constant (c : bool) (name : string) (w : item_world)
  : (item_exn + pyval) * item_world :=
  (inr (PDict [("value", PStr (name ++ "@example.org"))]), w).

Definition iw_cursor (c : bool) (w : item_world) : (item_exn + unit) * item_world :=
  (inr tt, w).

Definition iw_set_fast (cursor : unit) (b : bool) (w : item_world)
  : option item_exn * item_world :=
  (None, w).

Definition iw_execute (cursor : unit) (sql : string) (w : item_world)
  : option item_exn * item_world :=
  (None, w).

Definition iw_executemany (cursor : unit) (sql : string) (rows : list row) (w : item_world)
  : option item_exn * item_world :=
  (if insert_fails w then Some (ExternalError "pyodbc.Error" "insert failed") else None, w).

Definition iw_token (p12 : string) (scopes : list string) (app_email admin_email : pyval)
           (w : item_world) : (item_exn + pyval) * item_world :=
  (inr (PDict [("access_token", PStr "token")]), w).

Definition run_process_item (fuel : nat) (item_data item_reference : pyval)
  : item_world -> item_outcome unit * item_world * list item_event :=
  process_item item_world iw_get iw_random iw_sleep script_str iso_subset iw_getenv
    bool unit iw_new iw_enter iw_exit iw_get_constant iw_cursor iw_set_fast
    iw_execute iw_executemany iw_token fuel item_data item_reference.

Definition sample_item : pyval := PDict [("id", PInt 1)].

Definition sample_reference : pyval := PStr "chromebooks".

(** The key is set and the server sends two pages. *)
Definition good_world : item_world :=
  {| env_key := Some "/secrets/key.p12"; net := two_pages_script; insert_fails := false |}.

(** The same, but the bulk insert fails. *)
Definition insert_fails_world : item_world :=
  {| env_key := Some "/secrets/key.p12"; net := two_pages_script; insert_fails := true |}.

(** The key is not set. *)
Definition no_key_world : item_world :=
  {| env_key := None; net := two_pages_script; insert_fails := false |}.

(** A 503, then a redirect that is not followed. *)
Definition redirect_302 : response := plain_response 302 "Found".

Definition redirect_script : script :=
  {| responses := [inr unavailable_503; inr redirect_302; inr one_device_page];
     jitters := [1 # 2]%Q |}.

(** A 503, then a call of [requests.get] that raises outside
    [RequestException]. *)
Definition broken_script : script :=
  {| responses := [inr unavailable_503; inl (Exn ValueError "Invalid header value");
                   inr one_device_page];
     jitters := [1 # 2]%Q |}.

(** Five 503s. *)
Definition five_down_script : script :=
  {| responses := [inr unavailable_503; inr unavailable_503; inr unavailable_503;
                   inr unavailable_503; inr unavailable_503];
     jitters := [] |}.

(** A parser that differs from [iso_subset] only on strings that hold a [Z]. *)
Definition iso_subset_or_Z (s : string) : exn + datetime :=
  if str_contains "Z" s
  then inr (Datetime {| year := 1970; month := 1; day := 1 |} 0 0 0 0 (Some 0))
  else iso_subset s.

(** A device without [deviceId]. *)
Definition anonymous_device : list (string * pyval) :=
  [("serialNumber", PStr "5CD1234XYZ"); ("status", PStr "ACTIVE")].

(** [sample_device] with its fields in another order and one field more. *)
Definition sample_device_reordered : list (string * pyval) :=
  [("notes", PStr "loaner"); ("lastSync", PStr "2024-05-17T08:30:00Z");
   ("model", PStr "Chromebook 14"); ("macAddress", PStr "");
   ("serialNumber", PStr ""); ("deviceId", PStr "d1")].

(** * Facts *)

(** ** Strings, ranges and dicts *)

Example str_of_Z_5 : str_of_Z 5 = "5".
Proof. reflexivity. Qed.

Example str_replace_Z :
  str_replace "Z" "+00:00" "2024-05-17T08:30:00Z" = "2024-05-17T08:30:00+00:00".
Proof. reflexivity. Qed.

Example py_range_1_6 : py_range 1 (5 + 1) = [1; 2; 3; 4; 5].
Proof. reflexivity. Qed.

Lemma string_app_nil_r (s : string) : (s ++ "")%string = s.
Proof. induction s as [|c s IH]; simpl; [reflexivity | rewrite IH; reflexivity]. Qed.

Lemma string_app_inv_head (a b c : string) : (a ++ b)%string = (a ++ c)%string -> b = c.
Proof.
  induction a as [|x a IH]; simpl; intros H; [exact H|].
  injection H as H. exact (IH H).
Qed.

Lemma dict_lookup_remove_ne items k k' :
  k <> k' -> dict_lookup (dict_remove items k') k = dict_lookup items k.
Proof.
  intros Hne. induction items as [|[k0 v] items IH]; simpl; [reflexivity|].
  destruct (String.eqb_spec k0 k') as [->|Hk0].
  - rewrite IH. destruct (String.eqb_spec k' k); [congruence | reflexivity].
  - simpl. rewrite IH. reflexivity.
Qed.

Lemma dict_lookup_remove items k : dict_lookup (dict_remove items k) k = None.
Proof.
  induction items as [|[k0 v] items IH]; simpl; [reflexivity|].
  destruct (String.eqb_spec k0 k) as [->|Hk0]; [exact IH|].
  simpl. destruct (String.eqb_spec k0 k); [congruence | exact IH].
Qed.

Lemma dict_get_remove_ne items k k' default :
  k <> k' -> dict_get (dict_remove items k') k default = dict_get items k default.
Proof. intros Hne. unfold dict_get. rewrite dict_lookup_remove_ne by assumption. reflexivity. Qed.

Lemma str_replace_Z_absent new s :
  str_contains "Z" s = false -> str_replace "Z" new s = s.
Proof.
  unfold str_replace. induction s as [|c s IH]; [reflexivity|].
  cbn [str_contains str_replace_from String.prefix].
  destruct (Ascii.ascii_dec "Z" c) as [Heq|Hne].
  - destruct s; discriminate.
  - cbn [orb]. intros H. rewrite (IH H). reflexivity.
Qed.

Lemma str_replace_Z_suffix new body :
  str_contains "Z" body = false ->
  str_replace "Z" new (body ++ "Z") = (body ++ new)%string.
Proof.
  unfold str_replace. induction body as [|c s IH].
  - intros _. cbn. rewrite string_app_nil_r. reflexivity.
  - cbn [str_contains str_replace_from String.prefix String.append].
    destruct (Ascii.ascii_dec "Z" c) as [Heq|Hne].
    + destruct s; discriminate.
    + cbn [orb]. intros H. rewrite (IH H). reflexivity.
Qed.

(** ** [safe_request] *)

Section EnvFacts.
Variable World : Type.
Variable requests_get : string -> headers_t -> Z -> World -> get_outcome * World.
Variable random_random : World -> Q * World.
Variable time_sleep : Q -> World -> World.
Variable py_str : pyval -> string.

Local Abbreviation request_loop := (safe_request_loop requests_get random_random time_sleep).
Local Abbreviation request := (safe_request requests_get random_random time_sleep).


Ltac status_cases r :=
  destruct (Z.leb_spec 200 (status_code r)), (Z.ltb_spec (status_code r) 300),
    (Z.eqb_spec (status_code r) 429), (Z.eqb_spec (status_code r) 403),
    (Z.leb_spec 400 (status_code r)), (Z.ltb_spec (status_code r) 500),
    (Z.leb_spec 500 (status_code r)), (Z.ltb_spec (status_code r) 600);
  simpl in *; try lia; try discriminate; try reflexivity.

Lemma loop_step_final url headers mr timeout attempt rest backoff w o w1 :
  requests_get url headers timeout w = (o, w1) ->
  retryable o = false ->
  request_loop url headers mr timeout (attempt :: rest) backoff w
  = (final_outcome o, w1, [EvGet url o]).
Proof.
  intros Hget Hr. simpl. unfold bind at 1. unfold do_get at 1. rewrite Hget.
  destruct o as [e | r]; simpl in Hr |- *.
  - rewrite Hr. reflexivity.
  - unfold retryable_response, rate_limit_marker in Hr.
    destruct (str_contains "rateLimitExceeded" (text r)); status_cases r.
Qed.

Lemma loop_step_exhausted url headers mr timeout rest backoff w o w1 :
  requests_get url headers timeout w = (o, w1) ->
  retryable o = true ->
  request_loop url headers mr timeout (mr :: rest) backoff w
  = (Raised (Exn RuntimeError (exhausted_msg mr url)), w1, [EvGet url o]).
Proof.
  intros Hget Hr. simpl. unfold bind at 1. unfold do_get at 1. rewrite Hget.
  rewrite Z.eqb_refl.
  destruct o as [e | r]; simpl in Hr |- *.
  - rewrite Hr. reflexivity.
  - unfold retryable_response, rate_limit_marker in Hr.
    destruct (str_contains "rateLimitExceeded" (text r)); status_cases r.
Qed.

Lemma loop_step_retry url headers mr timeout attempt rest backoff w o w1 j w2 res w3 tr :
  requests_get url headers timeout w = (o, w1) ->
  retryable o = true ->
  attempt <> mr ->
  random_random w1 = (j, w2) ->
  request_loop url headers mr timeout rest (backoff * 2)
    (time_sleep (inject_Z backoff + j)%Q w2) = (res, w3, tr) ->
  request_loop url headers mr timeout (attempt :: rest) backoff w
  = (res, w3, EvGet url o :: EvSleep (inject_Z backoff + j)%Q :: tr).
Proof.
  intros Hget Hr Hne Hrand Hrest. simpl. unfold bind at 1. unfold do_get at 1. rewrite Hget.
  apply Z.eqb_neq in Hne. rewrite Hne.
  assert (Hretry :
    bind (do_random random_random)
      (fun jitter => bind (do_sleep time_sleep (inject_Z backoff + jitter)%Q)
         (fun _ => request_loop url headers mr timeout rest (backoff * 2))) w1
    = (res, w3, EvSleep (inject_Z backoff + j)%Q :: tr)).
  { unfold bind, do_random, do_sleep. rewrite Hrand, Hrest. destruct res; reflexivity. }
  destruct o as [e | r]; simpl in Hr |- *.
  - rewrite Hr, Hretry. reflexivity.
  - unfold retryable_response, rate_limit_marker in Hr.
    destruct (str_contains "rateLimitExceeded" (text r));
      status_cases r; rewrite Hretry; reflexivity.
Qed.

Lemma success_not_retryable r :
  success_response r = true -> retryable (inr r) = false.
Proof.
  unfold success_response, retryable, retryable_response. intros H.
  destruct (str_contains rate_limit_marker (text r)); status_cases r.
Qed.

Lemma request_loop_nil url headers mr timeout backoff w :
  request_loop url headers mr timeout [] backoff w
  = (Raised (Exn RuntimeError "safe_request() fell through unexpectedly"), w, []).
Proof. reflexivity. Qed.

(** Every way one iteration can go. *)
Lemma request_loop_cases url headers mr timeout attempt rest backoff w res w' tr :
  request_loop url headers mr timeout (attempt :: rest) backoff w = (res, w', tr) ->
  exists o w1, requests_get url headers timeout w = (o, w1) /\
    ((retryable o = false /\ res = final_outcome o /\ w' = w1 /\ tr = [EvGet url o])
     \/ (retryable o = true /\ attempt = mr /\
         res = Raised (Exn RuntimeError (exhausted_msg mr url)) /\ w' = w1 /\
         tr = [EvGet url o])
     \/ (retryable o = true /\ attempt <> mr /\
         exists j w2 tr',
           random_random w1 = (j, w2) /\
           request_loop url headers mr timeout rest (backoff * 2)
             (time_sleep (inject_Z backoff + j)%Q w2) = (res, w', tr') /\
           tr = EvGet url o :: EvSleep (inject_Z backoff + j)%Q :: tr')).
Proof.
  intros H.
  destruct (requests_get url headers timeout w) as [o w1] eqn:Hget.
  exists o, w1. split; [reflexivity|].
  destruct (retryable o) eqn:Hr.
  - destruct (Z.eq_dec attempt mr) as [->|Hne].
    + rewrite (loop_step_exhausted _ _ _ _ _ _ _ _ _ Hget Hr) in H.
      inversion H; subst. right; left. auto.
    + destruct (random_random w1) as [j w2] eqn:Hrand.
      destruct (request_loop url headers mr timeout rest (backoff * 2)
                  (time_sleep (inject_Z backoff + j)%Q w2)) as [[res' w3] tr'] eqn:Hrest.
      rewrite (loop_step_retry _ _ _ _ _ _ _ _ _ _ _ _ _ _ _ Hget Hr Hne Hrand Hrest) in H.
      inversion H; subst. right; right. repeat split; auto.
      exists j, w2, tr'. auto.
  - rewrite (loop_step_final _ _ _ _ _ _ _ _ _ _ Hget Hr) in H.
    inversion H; subst. left. auto.
Qed.

Lemma request_loop_nonretryable_last url headers mr timeout attempts :
  forall backoff w res w' tr pre u r post,
    request_loop url headers mr timeout attempts backoff w = (res, w', tr) ->
    tr = pre ++ EvGet u (inr r) :: post ->
    retryable (inr r) = false ->
    post = [] /\ res = Returned r.
Proof.
  induction attempts as [|attempt rest IH]; intros backoff w res w' tr pre u r post Hrun Htr Hr.
  - rewrite request_loop_nil in Hrun. inversion Hrun; subst.
    destruct pre; discriminate.
  - apply request_loop_cases in Hrun.
    destruct Hrun as (o & w1 & Hget &
      [(Ho & -> & -> & ->)
      |[(Ho & -> & -> & -> & ->)
       |(Ho & Hne & j & w2 & tr' & Hrand & Hrest & ->)]]).
    + destruct pre as [|x [|y pre]]; inversion Htr; subst. auto.
    + destruct pre as [|x [|y pre]]; inversion Htr; subst. congruence.
    + destruct pre as [|x [|y pre]]; inversion Htr; subst.
      * congruence.
      * eapply IH; eauto.
Qed.


Lemma terminal_not_retryable r :
  terminal_client_error r = true -> retryable (inr r) = false.
Proof.
  unfold terminal_client_error, retryable, retryable_response. intros H.
  destruct (str_contains rate_limit_marker (text r)); status_cases r.
Qed.

(** C4. Whatever the run of [safe_request]: a 403 answer that was followed
    by anything (a sleep and a new attempt) carried the rate-limit marker;
    and a 403 answer without the marker, or any 4xx answer other than 429
    and 403, is the last event of the run and is the value returned to the
    caller, not an exception. *)
Theorem safe_request_client_error_returned url headers mr timeout w res w' tr :
  safe_request requests_get random_random time_sleep url headers mr timeout w
  = (res, w', tr) ->
  (forall pre u r post,
      tr = pre ++ EvGet u (inr r) :: post ->
      status_code r = 403 ->
      post <> [] ->
      str_contains rate_limit_marker (text r) = true)
  /\
  (forall pre u r post,
      tr = pre ++ EvGet u (inr r) :: post ->
      terminal_client_error r = true ->
      post = [] /\ res = Returned r).
Proof.
  intros Hrun.
  assert (Hterm : forall pre u r post,
      tr = pre ++ EvGet u (inr r) :: post ->
      terminal_client_error r = true ->
      post = [] /\ res = Returned r).
  { intros pre u r post Htr Ht.
    eapply request_loop_nonretryable_last; eauto using terminal_not_retryable. }
  split; [|exact Hterm].
  intros pre u r post Htr H403 Hpost.
  destruct (str_contains rate_limit_marker (text r)) eqn:Hm; [reflexivity|].
  exfalso. apply Hpost.
  apply (Hterm pre u r post Htr).
  unfold terminal_client_error. rewrite H403, Hm. reflexivity.
Qed.

Lemma py_range_first mr :
  1 <= mr -> py_range 1 (mr + 1) = 1 :: range_from 2 (Z.to_nat (mr - 1)).
Proof.
  intros H. unfold py_range.
  replace (mr + 1 - 1) with (Z.succ (mr - 1)) by lia.
  rewrite Z2Nat.inj_succ by lia. reflexivity.
Qed.

(** C5. When the first request is answered with a status in [200,300),
    [safe_request] returns that response and its whole trace is that one
    request: no second attempt and no sleep. *)
Theorem safe_request_success_first_attempt url headers mr timeout w r w' :
  1 <= mr ->
  requests_get url headers timeout w = (inr r, w') ->
  200 <= status_code r < 300 ->
  safe_request requests_get random_random time_sleep url headers mr timeout w
  = (Returned r, w', [EvGet url (inr r)]).
Proof.
  intros Hmr Hget Hs.
  unfold safe_request. rewrite py_range_first by assumption.
  apply (loop_step_final _ _ _ _ _ _ _ _ _ _ Hget).
  apply success_not_retryable. unfold success_response.
  apply andb_true_iff. split; [apply Z.leb_le | apply Z.ltb_lt]; lia.
Qed.



Lemma request_loop_exhausted url headers mr timeout n :
  forall a backoff w res w' tr pre o,
    a + Z.of_nat n = mr + 1 ->
    request_loop url headers mr timeout (range_from a n) backoff w = (res, w', tr) ->
    get_outcomes tr = pre ++ [o] ->
    List.length (get_outcomes tr) = n ->
    retryable o = true ->
    res = Raised (Exn RuntimeError (exhausted_msg mr url)).
Proof.
  induction n as [|k IH]; intros a backoff w res w' tr pre o Ha Hrun Hout Hlen Hr.
  - rewrite Hout, length_app in Hlen. simpl in Hlen. lia.
  - simpl range_from in Hrun. apply request_loop_cases in Hrun.
    destruct Hrun as (o0 & w1 & Hget &
      [(Ho & -> & -> & ->)
      |[(Ho & -> & -> & -> & ->)
       |(Ho & Hne & j & w2 & tr' & Hrand & Hrest & ->)]]).
    + simpl in Hout. destruct pre as [|x [|y pre]]; inversion Hout; subst. congruence.
    + reflexivity.
    + simpl in Hout, Hlen.
      destruct pre as [|x pre].
      * injection Hout as Ho0 Hnil. rewrite Hnil in Hlen. simpl in Hlen. lia.
      * injection Hout as Hx Hout.
        eapply (IH (a + 1) (backoff * 2)); eauto; lia.
Qed.

(** C7. When the run of [safe_request] made [max_retries] requests and
    the last of them ended in a retryable outcome (a transport failure, a
    429, a 403 with the marker or a 5xx), the call raises a [RuntimeError]
    whose message is [Failed after <max_retries> attempts: <url>]. *)
Theorem safe_request_retry_exhausted url headers mr timeout w res w' tr pre o :
  safe_request requests_get random_random time_sleep url headers mr timeout w
  = (res, w', tr) ->
  get_outcomes tr = pre ++ [o] ->
  count_gets tr = mr ->
  retryable o = true ->
  res = Raised (Exn RuntimeError
                  ("Failed after " ++ str_of_Z mr ++ " attempts: " ++ url)%string).
Proof.
  intros Hrun Hout Hcount Hr.
  unfold count_gets in Hcount.
  assert (Hpos : 1 <= mr).
  { rewrite Hout, length_app in Hcount. simpl in Hcount. lia. }
  unfold safe_request, py_range in Hrun.
  eapply request_loop_exhausted with (a := 1); eauto; lia.
Qed.

Lemma count_gets_get u o tr : count_gets (EvGet u o :: tr) = 1 + count_gets tr.
Proof. unfold count_gets. cbn [get_outcomes List.length]. lia. Qed.

Lemma count_gets_sleep d tr : count_gets (EvSleep d :: tr) = count_gets tr.
Proof. reflexivity. Qed.

Lemma count_sleeps_get u o tr : count_sleeps (EvGet u o :: tr) = count_sleeps tr.
Proof. reflexivity. Qed.

Lemma count_sleeps_sleep d tr : count_sleeps (EvSleep d :: tr) = 1 + count_sleeps tr.
Proof. unfold count_sleeps. cbn [sleeps List.length]. lia. Qed.

Ltac norm_counts :=
  repeat (rewrite count_gets_get in * || rewrite count_gets_sleep in *
          || rewrite count_sleeps_get in * || rewrite count_sleeps_sleep in *).

Lemma request_loop_bounds url headers mr timeout n :
  forall a backoff w res w' tr,
    a + Z.of_nat n = mr ->
    request_loop url headers mr timeout (range_from a (S n)) backoff w = (res, w', tr) ->
    (exists o tl, tr = EvGet url o :: tl)
    /\ count_gets tr <= Z.of_nat (S n)
    /\ count_sleeps tr = count_gets tr - 1
    /\ sleeps_precede_gets tr = true
    /\ res <> OutOfFuel.
Proof.
  assert (Hone : forall o (res : outcome response),
             (res = final_outcome o \/ res = Raised (Exn RuntimeError (exhausted_msg mr url))) ->
             forall k, (exists o' tl, [EvGet url o] = EvGet url o' :: tl)
             /\ count_gets [EvGet url o] <= Z.of_nat (S k)
             /\ count_sleeps [EvGet url o] = count_gets [EvGet url o] - 1
             /\ sleeps_precede_gets [EvGet url o] = true
             /\ res <> OutOfFuel).
  { intros o res Hres k. unfold count_gets, count_sleeps. cbn [get_outcomes sleeps List.length].
    repeat split; try lia; eauto.
    destruct Hres as [-> | ->]; [destruct o|]; discriminate. }
  induction n as [|k IH]; intros a backoff w res w' tr Ha Hrun;
    simpl range_from in Hrun; apply request_loop_cases in Hrun;
    destruct Hrun as (o0 & w1 & Hget &
      [(Ho & -> & -> & ->)
      |[(Ho & -> & -> & -> & ->)
       |(Ho & Hne & j & w2 & tr' & Hrand & Hrest & ->)]]);
    try (apply Hone; auto; fail).
  - lia.
  - apply IH in Hrest; [|lia].
    destruct Hrest as ((o1 & tl & ->) & Hg & Hs & Hp & Hres).
    norm_counts.
    repeat split; eauto; lia.
Qed.

(** C9. For [max_retries >= 1], [safe_request] ends by returning or by
    raising, after at least one and at most [max_retries] requests and at
    most [max_retries - 1] sleeps; there is one sleep less than there are
    requests and every sleep is directly followed by a request, so nothing
    is slept after the last attempt. *)
Theorem safe_request_bounded url headers mr timeout w :
  1 <= mr ->
  exists res w' tr,
    safe_request requests_get random_random time_sleep url headers mr timeout w
    = (res, w', tr)
    /\ ((exists r, res = Returned r) \/ (exists e, res = Raised e))
    /\ 1 <= count_gets tr <= mr
    /\ count_sleeps tr <= mr - 1
    /\ count_sleeps tr = count_gets tr - 1
    /\ sleeps_precede_gets tr = true.
Proof.
  intros Hmr.
  destruct (request url headers mr timeout w) as [[res w'] tr] eqn:Hrun.
  exists res, w', tr. split; [reflexivity|].
  unfold safe_request in Hrun. rewrite py_range_first in Hrun by assumption.
  change (1 :: range_from 2 (Z.to_nat (mr - 1)))
    with (range_from 1 (S (Z.to_nat (mr - 1)))) in Hrun.
  apply request_loop_bounds in Hrun; [|lia].
  destruct Hrun as ((o1 & tl & ->) & Hg & Hs & Hp & Hres).
  norm_counts.
  assert (0 <= count_gets tl) by (unfold count_gets; lia).
  repeat split; try lia; try assumption.
  destruct res as [r|e|]; [left; eauto | right; eauto | congruence].
Qed.



(** ** [get_all_chromebooks] *)

Local Abbreviation pages_loop :=
  (get_all_chromebooks_loop requests_get random_random time_sleep py_str).

Lemma pages_loop_unfold fuel headers all_devices next_page page_number w :
  pages_loop (S fuel) headers all_devices next_page page_number w
  = match request (page_url py_str next_page) headers 5 60 w with
    | (Returned resp, w1, tr1) =>
        match page_step all_devices resp with
        | inl e => (Raised e, w1, tr1)
        | inr (all_devices', next_page') =>
            if py_truthy next_page'
            then match pages_loop fuel headers all_devices' next_page' (page_number + 1) w1 with
                 | (res, w2, tr2) => (res, w2, tr1 ++ tr2)
                 end
            else (Returned all_devices', w1, tr1)
        end
    | (Raised e, w1, tr1) => (Raised e, w1, tr1)
    | (OutOfFuel, w1, tr1) => (OutOfFuel, w1, tr1)
    end.
Proof.
  cbn [get_all_chromebooks_loop]. unfold bind at 1.
  destruct (request (page_url py_str next_page) headers 5 60 w) as [[[resp|e|] w1] tr1];
    try reflexivity.
  unfold page_step.
  destruct (json resp) as [e|payload]; cbn; [rewrite app_nil_r; reflexivity|].
  destruct (py_get payload "chromeosdevices" (PList [])) as [e|page_devices]; cbn;
    [rewrite app_nil_r; reflexivity|].
  destruct (py_getitem0 page_devices) as [e|x]; cbn; [rewrite app_nil_r; reflexivity|].
  destruct (py_len page_devices) as [e|n]; cbn; [rewrite app_nil_r; reflexivity|].
  destruct (py_extend all_devices page_devices) as [e|all']; cbn;
    [rewrite app_nil_r; reflexivity|].
  destruct (py_get payload "nextPageToken" PNone) as [e|next']; cbn;
    [rewrite app_nil_r; reflexivity|].
  destruct (py_truthy next'); cbn; [|rewrite app_nil_r; reflexivity].
  destruct (pages_loop fuel headers all' next' (page_number + 1) w1) as [[res w2] tr2].
  reflexivity.
Qed.

Lemma page_url_has_shape next_page : page_url_shape py_str (page_url py_str next_page).
Proof.
  unfold page_url_shape, page_url.
  destruct (py_truthy next_page) eqn:Ht.
  - right. exists next_page. auto.
  - left. apply string_app_nil_r.
Qed.

Lemma requested_urls_app tr1 tr2 :
  requested_urls (tr1 ++ tr2) = requested_urls tr1 ++ requested_urls tr2.
Proof.
  induction tr1 as [|[u o|d] tr1 IH]; simpl; [reflexivity | rewrite IH; reflexivity | exact IH].
Qed.

Lemma request_loop_urls url headers mr timeout attempts :
  forall backoff w res w' tr,
    request_loop url headers mr timeout attempts backoff w = (res, w', tr) ->
    Forall (eq url) (requested_urls tr).
Proof.
  induction attempts as [|attempt rest IH]; intros backoff w res w' tr Hrun.
  - rewrite request_loop_nil in Hrun. inversion Hrun; subst. constructor.
  - apply request_loop_cases in Hrun.
    destruct Hrun as (o & w1 & Hget &
      [(Ho & -> & -> & ->)
      |[(Ho & -> & -> & -> & ->)
       |(Ho & Hne & j & w2 & tr' & Hrand & Hrest & ->)]]);
      simpl; repeat constructor.
    eapply IH; eauto.
Qed.

Lemma pages_loop_urls fuel :
  forall headers all_devices next_page page_number w res w' tr,
    pages_loop fuel headers all_devices next_page page_number w = (res, w', tr) ->
    Forall (page_url_shape py_str) (requested_urls tr).
Proof.
  induction fuel as [|fuel IH]; intros headers all_devices next_page page_number w res w' tr Hrun.
  - inversion Hrun; subst. constructor.
  - rewrite pages_loop_unfold in Hrun.
    destruct (request (page_url py_str next_page) headers 5 60 w) as [[res1 w1] tr1] eqn:Hreq.
    assert (Hurls : Forall (page_url_shape py_str) (requested_urls tr1)).
    { apply request_loop_urls in Hreq.
      eapply Forall_impl; [|exact Hreq].
      intros u <-. apply page_url_has_shape. }
    destruct res1 as [resp|e|]; try (inversion Hrun; subst; assumption).
    destruct (page_step all_devices resp) as [e|[all' next']];
      try (inversion Hrun; subst; assumption).
    destruct (py_truthy next'); try (inversion Hrun; subst; assumption).
    destruct (pages_loop fuel headers all' next' (page_number + 1) w1) as [[res2 w2] tr2] eqn:Hrest.
    inversion Hrun; subst.
    rewrite requested_urls_app. apply Forall_app. split; [assumption|].
    eapply IH; eauto.
Qed.

Lemma page_step_no_cursor all_devices resp items :
  json resp = inr (PDict items) ->
  dict_lookup items "nextPageToken" = None \/
  dict_lookup items "nextPageToken" = Some (PStr "") ->
  match page_step all_devices resp with
  | inl e => end_of_collection all_devices (dict_get items "chromeosdevices" (PList [])) = Raised e
  | inr (all_devices', next_page') =>
      py_truthy next_page' = false /\
      end_of_collection all_devices (dict_get items "chromeosdevices" (PList []))
      = Returned all_devices'
  end.
Proof.
  intros Hjson Htok. unfold page_step, end_of_collection. rewrite Hjson.
  cbn [py_get].
  set (pd := dict_get items "chromeosdevices" (PList [])).
  destruct (py_getitem0 pd) as [e|x] eqn:Hx; [reflexivity|].
  assert (Hlen : exists n, py_len pd = inr n).
  { destruct pd as [| | | |s|l|its]; try discriminate; simpl; eauto. }
  destruct Hlen as [n ->].
  destruct (py_extend all_devices pd) as [e|all']; [reflexivity|].
  split; [|reflexivity].
  unfold dict_get. destruct Htok as [-> | ->]; reflexivity.
Qed.

(** C10. A page whose [nextPageToken] is the empty string ends the
    collection in that iteration, with the result an absent token gives:
    no further request is made, whatever fuel is left.  And every URL the
    collector requests is the base query, alone or followed by a truthy
    cursor; when [str] of a truthy value is never empty, the base query
    followed by an empty [pageToken] is never requested. *)
Theorem get_all_chromebooks_empty_token_ends :
  (forall fuel headers all_devices next_page page_number w resp w1 tr1 items,
      safe_request requests_get random_random time_sleep
        (page_url py_str next_page) headers 5 60 w = (Returned resp, w1, tr1) ->
      json resp = inr (PDict items) ->
      dict_lookup items "nextPageToken" = None \/
      dict_lookup items "nextPageToken" = Some (PStr "") ->
      get_all_chromebooks_loop requests_get random_random time_sleep py_str
        (S fuel) headers all_devices next_page page_number w
      = (end_of_collection all_devices (dict_get items "chromeosdevices" (PList [])), w1, tr1))
  /\
  (forall fuel access_token w res w' tr,
      get_all_chromebooks requests_get random_random time_sleep py_str fuel access_token w
      = (res, w', tr) ->
      Forall (page_url_shape py_str) (requested_urls tr)
      /\ ((forall c, py_truthy c = true -> py_str c <> "") ->
          ~ In (base_url ++ "&pageToken=")%string (requested_urls tr))).
Proof.
  split.
  - intros fuel headers all_devices next_page page_number w resp w1 tr1 items Hreq Hjson Htok.
    rewrite pages_loop_unfold, Hreq.
    pose proof (page_step_no_cursor all_devices resp items Hjson Htok) as Hstep.
    destruct (page_step all_devices resp) as [e|[all' next']].
    + rewrite Hstep. reflexivity.
    + destruct Hstep as [-> ->]. reflexivity.
  - intros fuel access_token w res w' tr Hrun.
    apply pages_loop_urls in Hrun. split; [exact Hrun|].
    intros Hstr Hin.
    rewrite Forall_forall in Hrun. specialize (Hrun _ Hin).
    destruct Hrun as [Hbase | (c & Hc & Hu)].
    + rewrite <- (string_app_nil_r base_url) in Hbase at 2.
      apply string_app_inv_head in Hbase. discriminate.
    + apply string_app_inv_head in Hu.
      change "&pageToken=" with ("&pageToken=" ++ "")%string in Hu at 1.
      apply string_app_inv_head in Hu.
      apply (Hstr c Hc). symmetry. exact Hu.
Qed.

Lemma request_success url headers w r w' :
  requests_get url headers 60 w = (inr r, w') ->
  success_response r = true ->
  request url headers 5 60 w = (Returned r, w', [EvGet url (inr r)]).
Proof.
  intros Hget Hs. unfold safe_request. rewrite py_range_first by lia.
  apply (loop_step_final _ _ _ _ _ _ _ _ _ _ Hget).
  apply success_not_retryable. exact Hs.
Qed.

Lemma page_step_page all_devices r d ds cursor :
  json r = inr (page_payload (d :: ds) cursor) ->
  page_step all_devices r
  = inr (all_devices ++ d :: ds, match cursor with Some c => c | None => PNone end).
Proof.
  intros Hjson. unfold page_step. rewrite Hjson. destruct cursor; reflexivity.
Qed.

Lemma count_gets_app tr1 tr2 : count_gets (tr1 ++ tr2) = count_gets tr1 + count_gets tr2.
Proof.
  unfold count_gets.
  induction tr1 as [|[u o|d] tr1 IH]; cbn [app get_outcomes List.length]; lia.
Qed.

Lemma pages_loop_collects pages :
  forall fuel headers all_devices next_page page_number w last_devices w_end,
    serves_pages requests_get py_str headers w next_page pages last_devices w_end ->
    Forall (fun p => fst p <> [] /\ py_truthy (snd p) = true) pages ->
    last_devices <> [] ->
    (List.length pages < fuel)%nat ->
    exists tr,
      pages_loop fuel headers all_devices next_page page_number w
      = (Returned (all_devices ++ all_devices_of pages last_devices), w_end, tr)
      /\ count_gets tr = Z.of_nat (List.length pages) + 1
      /\ count_sleeps tr = 0.
Proof.
  induction pages as [|[ds c] pages IH];
    intros fuel headers all_devices next_page page_number w last_devices w_end
           Hserve Hpages Hlast Hfuel.
  - destruct fuel as [|fuel]; [simpl in Hfuel; lia|].
    destruct Hserve as (r & Hget & Hs & Hjson).
    destruct last_devices as [|d ds]; [congruence|].
    rewrite pages_loop_unfold, (request_success _ _ _ _ _ Hget Hs).
    rewrite (page_step_page _ _ _ _ _ Hjson). cbn [py_truthy].
    eexists. split; [reflexivity|]. split; reflexivity.
  - destruct fuel as [|fuel]; [simpl in Hfuel; lia|].
    destruct Hserve as (r & w1 & Hget & Hs & Hjson & Hrest).
    inversion Hpages as [|p ps [Hds Hc] Hpages']; subst. simpl in Hds, Hc.
    destruct ds as [|d ds]; [congruence|].
    rewrite pages_loop_unfold, (request_success _ _ _ _ _ Hget Hs).
    rewrite (page_step_page _ _ _ _ _ Hjson), Hc.
    destruct (IH fuel headers (all_devices ++ d :: ds) c (page_number + 1) w1
                 last_devices w_end Hrest Hpages' Hlast) as (tr & Hrun & Hg & Hsl).
    { simpl in Hfuel. lia. }
    rewrite Hrun. eexists. split; [|split].
    + unfold all_devices_of. cbn [map List.concat fst]. rewrite <- !app_assoc. reflexivity.
    + cbn [app]. rewrite count_gets_get, Hg. cbn [List.length]. lia.
    + cbn [app]. rewrite count_sleeps_get. exact Hsl.
Qed.


(** A page without a device stops the collection with an [IndexError],
    whether or not it carries a cursor. *)
Lemma pages_loop_empty_page_raises
      fuel headers all_devices next_page page_number w r w1 items :
  requests_get (page_url py_str next_page) headers 60 w = (inr r, w1) ->
  success_response r = true ->
  json r = inr (PDict items) ->
  dict_get items "chromeosdevices" (PList []) = PList [] ->
  pages_loop (S fuel) headers all_devices next_page page_number w
  = (Raised (Exn IndexError "list index out of range"), w1,
     [EvGet (page_url py_str next_page) (inr r)]).
Proof.
  intros Hget Hs Hjson Hdevices.
  rewrite pages_loop_unfold, (request_success _ _ _ _ _ Hget Hs).
  unfold page_step. rewrite Hjson. cbn [py_get]. rewrite Hdevices. reflexivity.
Qed.

(** ** More on [safe_request] *)

Lemma unexpected_not_retryable r :
  unexpected_status r = true -> retryable (inr r) = false.
Proof.
  unfold unexpected_status, retryable, retryable_response. intros H.
  destruct (Z.ltb_spec (status_code r) 200), (Z.leb_spec 300 (status_code r)),
    (Z.ltb_spec (status_code r) 400), (Z.leb_spec 600 (status_code r));
    simpl in H; try discriminate;
    destruct (str_contains rate_limit_marker (text r)); status_cases r.
Qed.

(** An outcome that is not retried ends the run. *)
Lemma request_loop_final_event url headers mr timeout attempts :
  forall backoff w res w' tr pre u o post,
    request_loop url headers mr timeout attempts backoff w = (res, w', tr) ->
    tr = pre ++ EvGet u o :: post ->
    retryable o = false ->
    post = [] /\ res = final_outcome o.
Proof.
  induction attempts as [|attempt rest IH]; intros backoff w res w' tr pre u o post Hrun Htr Hr.
  - rewrite request_loop_nil in Hrun. inversion Hrun; subst.
    destruct pre; discriminate.
  - apply request_loop_cases in Hrun.
    destruct Hrun as (o0 & w1 & Hget &
      [(Ho & -> & -> & ->)
      |[(Ho & -> & -> & -> & ->)
       |(Ho & Hne & j & w2 & tr' & Hrand & Hrest & ->)]]).
    + destruct pre as [|x [|y pre]]; inversion Htr; subst. auto.
    + destruct pre as [|x [|y pre]]; inversion Htr; subst. congruence.
    + destruct pre as [|x [|y pre]]; inversion Htr; subst.
      * congruence.
      * eapply IH; eauto.
Qed.

(** X1. A response whose status is below 200, in [300,400) or from 600 up
    ends the run where it arrives: it is the last event and the value
    returned, without a retry. *)
Theorem safe_request_unexpected_status_returned url headers mr timeout w res w' tr :
  safe_request requests_get random_random time_sleep url headers mr timeout w
  = (res, w', tr) ->
  forall pre u r post,
    tr = pre ++ EvGet u (inr r) :: post ->
    unexpected_status r = true ->
    post = [] /\ res = Returned r.
Proof.
  intros Hrun pre u r post Htr Hu.
  apply (request_loop_final_event _ _ _ _ _ _ _ _ _ _ pre u (inr r) post Hrun Htr).
  apply unexpected_not_retryable. exact Hu.
Qed.

(** X2. An exception of [requests.get] that is not a [RequestException]
    is not caught: the run ends with that request and raises the same
    exception. *)
Theorem safe_request_other_exception_propagates url headers mr timeout w res w' tr :
  safe_request requests_get random_random time_sleep url headers mr timeout w
  = (res, w', tr) ->
  forall pre u e post,
    tr = pre ++ EvGet u (inl e) :: post ->
    is_RequestException e = false ->
    post = [] /\ res = Raised e.
Proof.
  intros Hrun pre u e post Htr He.
  exact (request_loop_final_event _ _ _ _ _ _ _ _ _ _ pre u (inl e) post Hrun Htr He).
Qed.

(** X3. With [max_retries <= 0] the loop has no iteration: no request is
    made, the world is left as it was, and the call raises the
    fell-through [RuntimeError]. *)
Theorem safe_request_no_attempts url headers mr timeout w :
  mr <= 0 ->
  safe_request requests_get random_random time_sleep url headers mr timeout w
  = (Raised (Exn RuntimeError "safe_request() fell through unexpectedly"), w, []).
Proof.
  intros Hmr. unfold safe_request, py_range.
  replace (Z.to_nat (mr + 1 - 1)) with O by lia. reflexivity.
Qed.

(** The outcomes of a run: all retryable but possibly the last, which
    decides the result. *)
Lemma request_loop_outcomes url headers mr timeout attempts :
  forall backoff w res w' tr,
    request_loop url headers mr timeout attempts backoff w = (res, w', tr) ->
    attempts <> [] ->
    exists pre o,
      get_outcomes tr = pre ++ [o]
      /\ Forall (fun o' => retryable o' = true) pre
      /\ (retryable o = false -> res = final_outcome o)
      /\ (retryable o = true -> exists msg, res = Raised (Exn RuntimeError msg)).
Proof.
  induction attempts as [|attempt rest IH]; intros backoff w res w' tr Hrun Hne;
    [congruence|].
  apply request_loop_cases in Hrun.
  destruct Hrun as (o0 & w1 & Hget &
    [(Ho & -> & -> & ->)
    |[(Ho & -> & -> & -> & ->)
     |(Ho & Hneq & j & w2 & tr' & Hrand & Hrest & ->)]]).
  - exists [], o0. repeat split; auto. congruence.
  - exists [], o0. repeat split; eauto. congruence.
  - destruct rest as [|a2 rest'].
    + rewrite request_loop_nil in Hrest. inversion Hrest; subst.
      exists [], o0. repeat split; eauto. congruence.
    + destruct (IH _ _ _ _ _ Hrest) as (pre & o & Hout & Hpre & Hfin & Hret);
        [discriminate|].
      exists (o0 :: pre), o. cbn [get_outcomes]. rewrite Hout.
      repeat split; auto.
Qed.

(** X4. A response that [safe_request] returns is the outcome of the last
    request of the run and is not retryable (so never a 429, a 5xx or a 403
    with the marker, but possibly a 4xx), and every request before it ended
    in a retryable outcome. *)
Theorem safe_request_returns_last_outcome url headers mr timeout w r w' tr :
  safe_request requests_get random_random time_sleep url headers mr timeout w
  = (Returned r, w', tr) ->
  retryable_response r = false
  /\ exists pre,
      get_outcomes tr = pre ++ [inr r]
      /\ Forall (fun o => retryable o = true) pre.
Proof.
  intros Hrun. unfold safe_request in Hrun.
  destruct (py_range 1 (mr + 1)) as [|a rest] eqn:Hrange.
  - rewrite request_loop_nil in Hrun. discriminate.
  - destruct (request_loop_outcomes _ _ _ _ _ _ _ _ _ _ Hrun)
      as (pre & o & Hout & Hpre & Hfin & Hret); [discriminate|].
    destruct (retryable o) eqn:Ho.
    + destruct (Hret eq_refl) as [msg Hmsg]. discriminate.
    + specialize (Hfin eq_refl). destruct o as [e|r0]; simpl in Hfin; [discriminate|].
      injection Hfin as <-. split; [exact Ho|]. exists pre. auto.
Qed.

Lemma request_loop_all_retryable url headers mr timeout n :
  forall a backoff w res w' tr,
    a + Z.of_nat n = mr ->
    request_loop url headers mr timeout (range_from a (S n)) backoff w = (res, w', tr) ->
    Forall (fun o => retryable o = true) (get_outcomes tr) ->
    res = Raised (Exn RuntimeError (exhausted_msg mr url))
    /\ count_gets tr = Z.of_nat (S n)
    /\ count_sleeps tr = Z.of_nat n.
Proof.
  induction n as [|k IH]; intros a backoff w res w' tr Ha Hrun Hall;
    simpl range_from in Hrun; apply request_loop_cases in Hrun;
    destruct Hrun as (o0 & w1 & Hget &
      [(Ho & -> & -> & ->)
      |[(Ho & -> & -> & -> & ->)
       |(Ho & Hne & j & w2 & tr' & Hrand & Hrest & ->)]]);
    try (inversion Hall; congruence).
  - split; [reflexivity|]. split; reflexivity.
  - lia.
  - lia.
  - cbn [get_outcomes] in Hall. inversion Hall as [|x l Hx Hall']; subst.
    apply IH in Hrest; [|lia|exact Hall'].
    destruct Hrest as (-> & Hg & Hs).
    norm_counts. split; [reflexivity|]. split; lia.
Qed.


Section Jitter.

(** [random.random()] is in [0,1). *)
Hypothesis random_in_range : forall w, (0 <= fst (random_random w) < 1)%Q.

Lemma request_loop_backoff url headers mr timeout attempts :
  forall backoff w res w' tr i d,
    request_loop url headers mr timeout attempts backoff w = (res, w', tr) ->
    nth_error (sleeps tr) i = Some d ->
    (inject_Z (backoff * 2 ^ Z.of_nat i) <= d
     < inject_Z (backoff * 2 ^ Z.of_nat i) + 1)%Q.
Proof.
  induction attempts as [|attempt rest IH]; intros backoff w res w' tr i d Hrun Hnth.
  - rewrite request_loop_nil in Hrun. inversion Hrun; subst. destruct i; discriminate.
  - apply request_loop_cases in Hrun.
    destruct Hrun as (o0 & w1 & Hget &
      [(Ho & -> & -> & ->)
      |[(Ho & -> & -> & -> & ->)
       |(Ho & Hne & j & w2 & tr' & Hrand & Hrest & ->)]]);
      try (destruct i; discriminate).
    cbn [sleeps] in Hnth. destruct i as [|i]; cbn [nth_error] in Hnth.
    + injection Hnth as <-.
      pose proof (random_in_range w1) as Hj. rewrite Hrand in Hj. cbn [fst] in Hj.
      change (2 ^ Z.of_nat 0) with 1. rewrite Z.mul_1_r.
      destruct Hj as [Hj0 Hj1]. split.
      * rewrite <- (Qplus_0_r (inject_Z backoff)) at 1. apply Qplus_le_r. exact Hj0.
      * apply Qplus_lt_r. exact Hj1.
    + replace (backoff * 2 ^ Z.of_nat (S i)) with (backoff * 2 * 2 ^ Z.of_nat i)
        by (rewrite Nat2Z.inj_succ, Z.pow_succ_r by lia; lia).
      eapply IH; eauto.
Qed.


Lemma total_sleep_retry u o d tr :
  total_sleep (EvGet u o :: EvSleep d :: tr) = (d + total_sleep tr)%Q.
Proof. reflexivity. Qed.

Lemma request_loop_total_sleep url headers mr timeout n :
  forall a backoff w res w' tr,
    0 <= backoff ->
    a + Z.of_nat n = mr ->
    request_loop url headers mr timeout (range_from a (S n)) backoff w = (res, w', tr) ->
    (total_sleep tr <= inject_Z (backoff * (2 ^ Z.of_nat n - 1) + Z.of_nat n))%Q.
Proof.
  assert (Hzero : forall b k, 0 <= b ->
             (0 <= inject_Z (b * (2 ^ Z.of_nat k - 1) + Z.of_nat k))%Q).
  { intros b k Hb. change 0%Q with (inject_Z 0). rewrite <- Zle_Qle.
    assert (0 < 2 ^ Z.of_nat k) by (apply Z.pow_pos_nonneg; lia). nia. }
  induction n as [|k IH]; intros a backoff w res w' tr Hb Ha Hrun;
    simpl range_from in Hrun; apply request_loop_cases in Hrun;
    destruct Hrun as (o0 & w1 & Hget &
      [(Ho & -> & -> & ->)
      |[(Ho & -> & -> & -> & ->)
       |(Ho & Hne & j & w2 & tr' & Hrand & Hrest & ->)]]);
    try (apply Hzero; assumption).
  - lia.
  - apply IH in Hrest; [|lia|lia].
    rewrite total_sleep_retry.
    pose proof (random_in_range w1) as Hj. rewrite Hrand in Hj. cbn [fst] in Hj.
    destruct Hj as [_ Hj1].
    eapply Qle_trans.
    + apply Qplus_le_compat; [|exact Hrest].
      apply Qplus_le_r. apply Qlt_le_weak. exact Hj1.
    + change 1%Q with (inject_Z 1). rewrite <- !inject_Z_plus. rewrite <- Zle_Qle.
      rewrite Nat2Z.inj_succ, Z.pow_succ_r by lia.
      lia.
Qed.

(** X7. With [random.random()] in [0,1) and [max_retries >= 1], a run
    sleeps at most [2^(max_retries-1) + max_retries - 2] seconds in all:
    19 seconds for the default of 5 attempts. *)
Theorem safe_request_total_sleep_bound url headers mr timeout w res w' tr :
  1 <= mr ->
  safe_request requests_get random_random time_sleep url headers mr timeout w
  = (res, w', tr) ->
  (total_sleep tr <= inject_Z (2 ^ (mr - 1) + mr - 2))%Q.
Proof.
  intros Hmr Hrun.
  unfold safe_request in Hrun. rewrite py_range_first in Hrun by assumption.
  change (1 :: range_from 2 (Z.to_nat (mr - 1)))
    with (range_from 1 (S (Z.to_nat (mr - 1)))) in Hrun.
  assert (Ha : 1 + Z.of_nat (Z.to_nat (mr - 1)) = mr) by lia.
  pose proof (request_loop_total_sleep _ _ _ _ _ _ _ _ _ _ _ Z.le_0_1 Ha Hrun) as H.
  rewrite Z2Nat.id in H by lia.
  replace (2 ^ (mr - 1) + mr - 2) with (1 * (2 ^ (mr - 1) - 1) + (mr - 1)) by lia.
  exact H.
Qed.

End Jitter.

(** ** More on [get_all_chromebooks] *)

(** X9. Whatever response [safe_request] hands back, 2xx or not: when
    its JSON body is an object whose [chromeosdevices] is missing or an
    empty list, the collector raises [IndexError] in that iteration and
    makes no further request. *)
Theorem get_all_chromebooks_page_without_devices
        fuel headers all_devices next_page page_number w resp w1 tr1 items :
  safe_request requests_get random_random time_sleep
    (page_url py_str next_page) headers 5 60 w = (Returned resp, w1, tr1) ->
  json resp = inr (PDict items) ->
  dict_get items "chromeosdevices" (PList []) = PList [] ->
  get_all_chromebooks_loop requests_get random_random time_sleep py_str
    (S fuel) headers all_devices next_page page_number w
  = (Raised (Exn IndexError "list index out of range"), w1, tr1).
Proof.
  intros Hreq Hjson Hdevices.
  rewrite pages_loop_unfold, Hreq.
  unfold page_step. rewrite Hjson. cbn [py_get]. rewrite Hdevices. reflexivity.
Qed.

Lemma pages_loop_after_prefix pages :
  forall fuel headers all_devices next_page page_number w w_k next_k,
    serves_prefix requests_get py_str headers w next_page pages w_k next_k ->
    Forall (fun p => fst p <> [] /\ py_truthy (snd p) = true) pages ->
    exists tr0,
      count_gets tr0 = Z.of_nat (List.length pages)
      /\ count_sleeps tr0 = 0
      /\ forall res w' tr,
          pages_loop fuel headers (all_devices ++ List.concat (map fst pages)) next_k
            (page_number + Z.of_nat (List.length pages)) w_k = (res, w', tr) ->
          pages_loop (List.length pages + fuel) headers all_devices next_page page_number w
          = (res, w', tr0 ++ tr).
Proof.
  induction pages as [|[ds c] pages IH];
    intros fuel headers all_devices next_page page_number w w_k next_k Hserve Hpages.
  - destruct Hserve as [-> ->]. exists []. split; [reflexivity|]. split; [reflexivity|].
    intros res w' tr Hrun. cbn [List.length map List.concat plus app] in *.
    rewrite app_nil_r, Z.add_0_r in Hrun. exact Hrun.
  - destruct Hserve as (r & w1 & Hget & Hs & Hjson & Hrest).
    inversion Hpages as [|p ps [Hds Hc] Hpages']; subst. simpl in Hds, Hc.
    destruct ds as [|d ds]; [congruence|].
    destruct (IH fuel headers (all_devices ++ d :: ds) c (page_number + 1) w1 w_k next_k
                 Hrest Hpages') as (tr0 & Hg & Hsl & Hcont).
    exists (EvGet (page_url py_str next_page) (inr r) :: tr0).
    split; [|split].
    + rewrite count_gets_get, Hg. cbn [List.length]. lia.
    + rewrite count_sleeps_get. exact Hsl.
    + intros res w' tr Hrun.
      cbn [List.length plus].
      rewrite pages_loop_unfold, (request_success _ _ _ _ _ Hget Hs).
      rewrite (page_step_page _ _ _ _ _ Hjson), Hc.
      rewrite (Hcont res w' tr); [reflexivity|].
      cbn [map List.concat fst List.length] in Hrun.
      rewrite <- app_assoc.
      replace (page_number + 1 + Z.of_nat (List.length pages))
        with (page_number + Z.of_nat (S (List.length pages))) by lia.
      exact Hrun.
Qed.


Lemma pages_loop_endless headers :
  endless_server requests_get headers ->
  forall fuel all_devices next_page page_number w,
    exists w' tr,
      pages_loop fuel headers all_devices next_page page_number w = (OutOfFuel, w', tr)
      /\ count_gets tr = Z.of_nat fuel.
Proof.
  intros Hserver.
  induction fuel as [|fuel IH]; intros all_devices next_page page_number w.
  - exists w, []. split; reflexivity.
  - destruct (Hserver (page_url py_str next_page) w)
      as (r & w1 & d & ds & c & Hget & Hs & Hjson & Hc).
    rewrite pages_loop_unfold, (request_success _ _ _ _ _ Hget Hs).
    rewrite (page_step_page _ _ _ _ _ Hjson), Hc.
    destruct (IH (all_devices ++ d :: ds) c (page_number + 1) w1) as (w' & tr & Hrun & Hg).
    rewrite Hrun. eexists. eexists. split; [reflexivity|].
    cbn [app]. rewrite count_gets_get, Hg. lia.
Qed.

End EnvFacts.

(** ** The rows of [process_item] *)

Section NormalizerFacts.

Variable fromisoformat : string -> exn + datetime.

Local Abbreviation row_of := (process_item_row fromisoformat).

Lemma last_sync_of_unusable items :
  timestamp_unusable fromisoformat (dict_lookup items "lastSync") ->
  last_sync_of fromisoformat (dict_get items "lastSync" PNone) = None.
Proof.
  unfold timestamp_unusable, dict_get, last_sync_of.
  destruct (dict_lookup items "lastSync") as [[| | | |s| |]|]; intros H;
    try reflexivity;
    try (match goal with |- context [py_truthy ?v] => destruct (py_truthy v) end; reflexivity).
  destruct H as [-> | [e He]]; [reflexivity|].
  destruct (py_truthy (PStr s)); [|reflexivity].
  cbn [parse_last_sync]. rewrite He. reflexivity.
Qed.

(** C8. Every device that is a dict yields a row.  When [lastSync] is
    absent, not a string, empty or rejected by the parser, [last_sync_date]
    is [None], and the other six fields are those of the same device
    without its [lastSync].  When [lastSync] is a string without [Z], or
    such a string followed by one [Z], that the parser accepts (the [Z]
    read as [+00:00]), [last_sync_date] is the date of the parsed value. *)
Theorem process_item_row_last_sync items :
  exists r,
    row_of (PDict items) = inr r
    /\ (timestamp_unusable fromisoformat (dict_lookup items "lastSync") ->
        last_sync_date r = None)
    /\ (exists r0,
          row_of (PDict (dict_remove items "lastSync")) = inr r0
          /\ last_sync_date r0 = None
          /\ same_but_last_sync r r0)
    /\ (forall s dt,
          dict_lookup items "lastSync" = Some (PStr s) ->
          s <> "" ->
          str_contains "Z" s = false ->
          fromisoformat s = inr dt ->
          last_sync_date r = Some (dt_date dt))
    /\ (forall body dt,
          dict_lookup items "lastSync" = Some (PStr (body ++ "Z")) ->
          str_contains "Z" body = false ->
          fromisoformat (body ++ "+00:00") = inr dt ->
          last_sync_date r = Some (dt_date dt)).
Proof.
  eexists. split; [reflexivity|]. cbn [last_sync_date].
  split; [apply last_sync_of_unusable|].
  split.
  - eexists. split; [reflexivity|]. cbn [last_sync_date]. split.
    + unfold dict_get. rewrite dict_lookup_remove. reflexivity.
    + unfold same_but_last_sync. cbn.
      rewrite !dict_get_remove_ne by discriminate. repeat split; reflexivity.
  - split.
    + intros s dt Hlook Hne HZ Hparse.
      unfold dict_get, last_sync_of. rewrite Hlook.
      cbn [py_truthy]. apply String.eqb_neq in Hne. rewrite Hne. cbn [negb parse_last_sync].
      rewrite (str_replace_Z_absent _ _ HZ), Hparse. reflexivity.
    + intros body dt Hlook HZ Hparse.
      unfold dict_get, last_sync_of. rewrite Hlook.
      cbn [py_truthy].
      assert (Hne : ((body ++ "Z") =? "")%string = false).
      { apply String.eqb_neq. destruct body; discriminate. }
      rewrite Hne. cbn [negb parse_last_sync].
      rewrite (str_replace_Z_suffix _ _ HZ), Hparse. reflexivity.
Qed.

(** C3, amended. An absent [serialNumber], [status] or [orgUnitPath] gives
    [None]; an absent or falsy [macAddress] or [model] gives [None]; a
    [serialNumber], [status] or [orgUnitPath] that is present is copied as
    it is, falsy or not. *)
Theorem process_item_row_optional_fields items :
  exists r,
    row_of (PDict items) = inr r
    /\ (dict_lookup items "serialNumber" = None -> serial_number r = PNone)
    /\ (dict_lookup items "status" = None -> status r = PNone)
    /\ (dict_lookup items "orgUnitPath" = None -> org_unit r = PNone)
    /\ (py_truthy (dict_get items "macAddress" PNone) = false -> mac_address r = PNone)
    /\ (py_truthy (dict_get items "model" PNone) = false -> model r = PNone)
    /\ (forall v, dict_lookup items "serialNumber" = Some v -> serial_number r = v)
    /\ (forall v, dict_lookup items "status" = Some v -> status r = v)
    /\ (forall v, dict_lookup items "orgUnitPath" = Some v -> org_unit r = v).
Proof.
  eexists. split; [reflexivity|]. cbn. unfold dict_get, py_or.
  repeat split; try (intros H; rewrite H; reflexivity);
    try (intros v H; rewrite H; reflexivity).
Qed.


(** ** More on the rows *)

(** X12. When every device is a dict, the loop appends exactly one row
    per device, in the order of the devices, to the rows it started
    with. *)
Theorem process_item_rows_one_per_device devices : forall tvp_rows,
  Forall (fun d => is_dict d = true) devices ->
  exists rows,
    process_item_rows fromisoformat devices tvp_rows = inr (tvp_rows ++ rows)
    /\ Forall2 (fun d r => row_of d = inr r) devices rows.
Proof.
  induction devices as [|d devices IH]; intros tvp_rows Hdicts.
  - exists []. rewrite app_nil_r. split; [reflexivity | constructor].
  - inversion Hdicts as [|x l Hd Hrest]; subst.
    destruct d as [| | | | | |items]; try discriminate.
    cbn [process_item_rows].
    destruct (row_of (PDict items)) as [e|r] eqn:Hrow; [discriminate|].
    destruct (IH (tvp_rows ++ [r]) Hrest) as (rows & Hrows & Hall).
    exists (r :: rows). split.
    + rewrite Hrows, <- app_assoc. reflexivity.
    + constructor; assumption.
Qed.


(** X14. The row of a device depends only on its seven keys [deviceId],
    [serialNumber], [macAddress], [model], [status], [lastSync] and
    [orgUnitPath]: other keys and the order of the keys do not matter. *)
Theorem process_item_row_reads_seven_keys items1 items2 :
  (forall k,
      In k ["deviceId"; "serialNumber"; "macAddress"; "model"; "status";
            "lastSync"; "orgUnitPath"] ->
      dict_lookup items1 k = dict_lookup items2 k) ->
  row_of (PDict items1) = row_of (PDict items2).
Proof.
  intros Hkeys. unfold process_item_row, dict_get.
  rewrite !(Hkeys _) by (cbn [In]; tauto).
  reflexivity.
Qed.

(** X15. A device without [deviceId] still yields a row, with [None] as
    [device_id]; a [deviceId] that is present is copied as it is. *)
Theorem process_item_row_device_id items :
  exists r,
    row_of (PDict items) = inr r
    /\ (dict_lookup items "deviceId" = None -> device_id r = PNone)
    /\ (forall v, dict_lookup items "deviceId" = Some v -> device_id r = v).
Proof.
  eexists. split; [reflexivity|]. cbn [device_id]. unfold dict_get.
  split; [intros ->; reflexivity | intros v ->; reflexivity].
Qed.

End NormalizerFacts.

(** * The code on concrete inputs *)

Lemma script_str_nonempty (c : pyval) : py_truthy c = true -> script_str c <> "".
Proof.
  destruct c as [|[|]| | |s| |]; simpl; try discriminate.
  destruct s; discriminate.
Qed.

(** C1. An inventory without devices: the server sends one page with an
    empty device list and no cursor.  The concatenation of the pages is the
    empty list, but the collector raises [IndexError] on the page. *)
Theorem get_all_chromebooks_no_devices_raises :
  run_get_all_chromebooks 3 "token" no_devices_script
  = (Raised (Exn IndexError "list index out of range"),
     {| responses := []; jitters := [] |},
     [EvGet base_url (inr (ok_response (page_payload [] None)))])
  /\ all_devices_of [] [] = [].
Proof. split; reflexivity. Qed.

(** C2. A page with an empty device list and the cursor [c1], followed by
    a page with one device: the collector raises [IndexError] on the first
    page, and the second page is never requested. *)
Theorem get_all_chromebooks_empty_page_aborts :
  run_get_all_chromebooks 3 "token" empty_first_page_script
  = (Raised (Exn IndexError "list index out of range"),
     {| responses := [inr one_device_page]; jitters := [] |},
     [EvGet base_url (inr (ok_response (page_payload [] (Some (PStr "c1")))))]).
Proof. reflexivity. Qed.


Lemma safe_request_client_error_returned_witness :
  run_safe_request sample_url [] 5 60 forbidden_script
  = (Returned forbidden_403,
     {| responses := [inr one_device_page]; jitters := [] |},
     [EvGet sample_url (inr unavailable_503); EvSleep (3 # 2);
      EvGet sample_url (inr forbidden_403)])
  /\ terminal_client_error forbidden_403 = true
  /\ (@nil event = [] /\ Returned forbidden_403 = Returned forbidden_403)
  /\ run_safe_request sample_url [] 5 60 rate_limited_script
     = (Returned one_device_page,
        {| responses := []; jitters := [] |},
        [EvGet sample_url (inr rate_limited_403); EvSleep (7 # 4);
         EvGet sample_url (inr one_device_page)])
  /\ status_code rate_limited_403 = 403
  /\ str_contains rate_limit_marker (text rate_limited_403) = true.
Proof.
  assert (Hrun1 : run_safe_request sample_url [] 5 60 forbidden_script
                  = (Returned forbidden_403,
                     {| responses := [inr one_device_page]; jitters := [] |},
                     [EvGet sample_url (inr unavailable_503); EvSleep (3 # 2);
                      EvGet sample_url (inr forbidden_403)]))
    by reflexivity.
  assert (Hrun2 : run_safe_request sample_url [] 5 60 rate_limited_script
                  = (Returned one_device_page,
                     {| responses := []; jitters := [] |},
                     [EvGet sample_url (inr rate_limited_403); EvSleep (7 # 4);
                      EvGet sample_url (inr one_device_page)]))
    by reflexivity.
  split; [exact Hrun1|]. split; [reflexivity|]. split.
  - apply (proj2 (safe_request_client_error_returned script script_get script_random
                    script_sleep _ _ _ _ _ _ _ _ Hrun1)
             [EvGet sample_url (inr unavailable_503); EvSleep (3 # 2)]
             sample_url forbidden_403 []); reflexivity.
  - split; [exact Hrun2|]. split; [reflexivity|].
    apply (proj1 (safe_request_client_error_returned script script_get script_random
                    script_sleep _ _ _ _ _ _ _ _ Hrun2)
             [] sample_url rate_limited_403
             [EvSleep (7 # 4); EvGet sample_url (inr one_device_page)]);
      [reflexivity | reflexivity | discriminate].
Defined.

Lemma safe_request_success_first_attempt_witness :
  1 <= 5
  /\ 200 <= status_code one_device_page < 300
  /\ run_safe_request sample_url [] 5 60
       {| responses := [inr one_device_page]; jitters := [] |}
     = (Returned one_device_page, {| responses := []; jitters := [] |},
        [EvGet sample_url (inr one_device_page)]).
Proof.
  split; [lia|]. split; [simpl; lia|].
  apply (safe_request_success_first_attempt script script_get script_random script_sleep);
    [lia | reflexivity | simpl; lia].
Defined.


Lemma safe_request_retry_exhausted_witness :
  retryable (inr unavailable_503) = true
  /\ fst (fst (run_safe_request sample_url [] 2 60 down_script))
     = Raised (Exn RuntimeError "Failed after 2 attempts: https://directory.example/devices").
Proof.
  split; [reflexivity|].
  assert (Hrun : run_safe_request sample_url [] 2 60 down_script
                 = (fst (fst (run_safe_request sample_url [] 2 60 down_script)),
                    {| responses := []; jitters := [] |},
                    [EvGet sample_url (inr unavailable_503); EvSleep (3 # 2);
                     EvGet sample_url (inr unavailable_503)]))
    by reflexivity.
  apply (safe_request_retry_exhausted script script_get script_random script_sleep
           _ _ _ _ _ _ _ _ [inr unavailable_503] (inr unavailable_503) Hrun);
    reflexivity.
Defined.

Lemma safe_request_bounded_witness :
  1 <= 5
  /\ exists res w' tr,
      run_safe_request sample_url [] 5 60 flaky_script = (res, w', tr)
      /\ ((exists r, res = Returned r) \/ (exists e, res = Raised e))
      /\ 1 <= count_gets tr <= 5
      /\ count_sleeps tr <= 5 - 1
      /\ count_sleeps tr = count_gets tr - 1
      /\ sleeps_precede_gets tr = true.
Proof.
  split; [lia|].
  apply (safe_request_bounded script script_get script_random script_sleep
           sample_url [] 5 60 flaky_script).
  lia.
Defined.

Lemma get_all_chromebooks_empty_token_ends_witness :
  run_get_all_chromebooks 3 "token" empty_token_script
  = (Returned [device "d1"; device "d2"],
     {| responses := [inr one_device_page]; jitters := [] |},
     [EvGet base_url (inr empty_token_page)])
  /\ ~ In (base_url ++ "&pageToken=")%string
        (requested_urls (snd (run_get_all_chromebooks 3 "token" two_pages_script))).
Proof.
  split.
  - apply (proj1 (get_all_chromebooks_empty_token_ends script script_get script_random
                    script_sleep script_str)
             2%nat (request_headers "token") [] PNone 1 empty_token_script
             empty_token_page
             {| responses := [inr one_device_page]; jitters := [] |}
             [EvGet base_url (inr empty_token_page)]
             [("chromeosdevices", PList [device "d1"; device "d2"]);
              ("nextPageToken", PStr "")]);
      [reflexivity | reflexivity | right; reflexivity].
  - apply (proj2 (get_all_chromebooks_empty_token_ends script script_get script_random
                    script_sleep script_str)
             3%nat "token" two_pages_script
             (fst (fst (run_get_all_chromebooks 3 "token" two_pages_script)))
             (snd (fst (run_get_all_chromebooks 3 "token" two_pages_script)))
             (snd (run_get_all_chromebooks 3 "token" two_pages_script)));
      [reflexivity | exact script_str_nonempty].
Defined.

Lemma process_item_row_last_sync_witness :
  (exists r,
      process_item_row iso_subset (PDict sample_device) = inr r
      /\ last_sync_date r = Some {| year := 2024; month := 5; day := 17 |})
  /\ timestamp_unusable iso_subset (dict_lookup sample_device_bad_sync "lastSync")
  /\ (exists r,
        process_item_row iso_subset (PDict sample_device_bad_sync) = inr r
        /\ last_sync_date r = None).
Proof.
  split; [|split].
  - destruct (process_item_row_last_sync iso_subset sample_device)
      as (r & Hr & _ & _ & _ & HZ).
    exists r. split; [exact Hr|].
    apply (HZ "2024-05-17T08:30:00"
              (Datetime {| year := 2024; month := 5; day := 17 |} 8 30 0 0 (Some 0)));
      reflexivity.
  - right. eexists. reflexivity.
  - destruct (process_item_row_last_sync iso_subset sample_device_bad_sync)
      as (r & Hr & Hbad & _).
    exists r. split; [exact Hr|].
    apply Hbad. right. eexists. reflexivity.
Defined.

(** C3 as stated fails: an empty [serialNumber] is falsy, and the row
    carries the empty string, not [None]. *)
Lemma process_item_row_keeps_empty_serial_number :
  py_truthy (dict_get sample_device "serialNumber" PNone) = false
  /\ exists r,
      process_item_row iso_subset (PDict sample_device) = inr r
      /\ serial_number r = PStr ""
      /\ serial_number r <> PNone.
Proof.
  split; [reflexivity|].
  eexists. split; [reflexivity|]. split; [reflexivity | discriminate].
Qed.

Lemma process_item_row_optional_fields_witness :
  dict_lookup sample_device "status" = None
  /\ py_truthy (dict_get sample_device "macAddress" PNone) = false
  /\ dict_lookup sample_device "serialNumber" = Some (PStr "")
  /\ exists r,
      process_item_row iso_subset (PDict sample_device) = inr r
      /\ status r = PNone
      /\ mac_address r = PNone
      /\ serial_number r = PStr "".
Proof.
  split; [reflexivity|]. split; [reflexivity|]. split; [reflexivity|].
  destruct (process_item_row_optional_fields iso_subset sample_device)
    as (r & Hr & _ & Hstatus & _ & Hmac & _ & Hserial & _).
  exists r. split; [exact Hr|]. split; [|split].
  - apply Hstatus. reflexivity.
  - apply Hmac. reflexivity.
  - apply Hserial. reflexivity.
Defined.

(** * More on strings *)

Lemma prefix_app (a b : string) :
  String.prefix a b = true <-> exists post, b = (a ++ post)%string.
Proof.
  revert b. induction a as [|c a IH]; intros b.
  - split; [intros _; exists b; reflexivity | intros _; destruct b; reflexivity].
  - destruct b as [|c' b]; cbn [String.prefix String.append].
    + split; [discriminate | intros [post H]; discriminate].
    + destruct (Ascii.ascii_dec c c') as [<-|Hne].
      * rewrite IH. split; intros [post H]; exists post; congruence.
      * split; [discriminate | intros [post H]; congruence].
Qed.

(** X17. The test [needle in hay] holds exactly when [hay] is some
    prefix, then [needle], then some suffix: the rate-limit marker is
    looked for anywhere in the body of a 403. *)
Theorem str_contains_substring needle hay :
  str_contains needle hay = true
  <-> exists pre post, hay = (pre ++ needle ++ post)%string.
Proof.
  induction hay as [|c hay IH].
  - cbn [str_contains]. rewrite orb_false_r, prefix_app. split.
    + intros [post H]. exists "", post. exact H.
    + intros (pre & post & H). exists post.
      destruct pre; [exact H | discriminate].
  - cbn [str_contains]. rewrite orb_true_iff, prefix_app, IH. split.
    + intros [[post H] | (pre & post & H)].
      * exists "", post. exact H.
      * exists (String c pre), post. cbn [String.append]. rewrite H. reflexivity.
    + intros (pre & post & H). destruct pre as [|c' pre].
      * left. exists post. exact H.
      * right. cbn [String.append] in H. injection H as _ H. exists pre, post. exact H.
Qed.

Lemma str_replace_Z_gone s :
  str_contains "Z" (str_replace "Z" "+00:00" s) = false.
Proof.
  unfold str_replace. induction s as [|c s IH]; [reflexivity|].
  cbn [str_replace_from String.prefix].
  destruct (Ascii.ascii_dec "Z" c) as [<-|Hne].
  - destruct s; cbn [String.prefix String.length Nat.sub]; exact IH.
  - cbn [str_contains String.prefix].
    destruct (Ascii.ascii_dec "Z" c); [contradiction|]. exact IH.
Qed.


(** * More on [process_item] *)

Lemma statements_app tr1 tr2 : statements (tr1 ++ tr2) = statements tr1 ++ statements tr2.
Proof.
  induction tr1 as [|[] tr1 IH]; cbn [app statements]; rewrite ?IH; reflexivity.
Qed.

Lemma statements_net tr : statements (map ItNet tr) = [].
Proof. induction tr as [|e tr IH]; [reflexivity | exact IH]. Qed.

Lemma net_events_app tr1 tr2 : net_events (tr1 ++ tr2) = net_events tr1 ++ net_events tr2.
Proof.
  induction tr1 as [|[] tr1 IH]; cbn [app net_events]; rewrite ?IH; reflexivity.
Qed.

Lemma net_events_net tr : net_events (map ItNet tr) = tr.
Proof. induction tr as [|e tr IH]; [reflexivity | cbn; rewrite IH; reflexivity]. Qed.

Lemma exit_excs_app tr1 tr2 : exit_excs (tr1 ++ tr2) = exit_excs tr1 ++ exit_excs tr2.
Proof.
  induction tr1 as [|[] tr1 IH]; cbn [app exit_excs]; rewrite ?IH; reflexivity.
Qed.

Lemma exit_excs_net tr : exit_excs (map ItNet tr) = [].
Proof. induction tr as [|e tr IH]; [reflexivity | exact IH]. Qed.

Lemma entered_app tr1 tr2 : entered (tr1 ++ tr2) = (entered tr1 + entered tr2)%nat.
Proof.
  induction tr1 as [|ev tr1 IH]; [reflexivity|].
  destruct ev; cbn [app entered]; try exact IH.
  match goal with |- context [match ?r with _ => _ end] => destruct r end;
    rewrite IH; reflexivity.
Qed.

Lemma entered_net tr : entered (map ItNet tr) = O.
Proof. induction tr as [|e tr IH]; [reflexivity | exact IH]. Qed.

Lemma exited_app tr1 tr2 : exited (tr1 ++ tr2) = (exited tr1 + exited tr2)%nat.
Proof.
  induction tr1 as [|[] tr1 IH]; cbn [app exited]; rewrite ?IH; reflexivity.
Qed.

Lemma exited_net tr : exited (map ItNet tr) = O.
Proof. induction tr as [|e tr IH]; [reflexivity | exact IH]. Qed.

Section ItemFacts.

Variable World : Type.
Variable requests_get : string -> headers_t -> Z -> World -> get_outcome * World.
Variable random_random : World -> Q * World.
Variable time_sleep : Q -> World -> World.
Variable py_str : pyval -> string.
Variable fromisoformat : string -> exn + datetime.
Variable os_getenv : string -> World -> option string.
Variable Conn : Type.
Variable Cursor : Type.
Variable rpa_new : string -> bool -> World -> (item_exn + Conn) * World.
Variable rpa_enter : Conn -> World -> (item_exn + Conn) * World.
Variable rpa_exit : Conn -> option item_exn -> World -> (item_exn + bool) * World.
Variable rpa_get_constant : Conn -> string -> World -> (item_exn + pyval) * World.
Variable rpa_cursor : Conn -> World -> (item_exn + Cursor) * World.
Variable cursor_set_fast_executemany : Cursor -> bool -> World -> option item_exn * World.
Variable cursor_execute : Cursor -> string -> World -> option item_exn * World.
Variable cursor_executemany :
  Cursor -> string -> list row -> World -> option item_exn * World.
Variable google_token :
  string -> list string -> pyval -> pyval -> World -> (item_exn + pyval) * World.

Local Abbreviation item_run :=
  (process_item World requests_get random_random time_sleep py_str fromisoformat
     os_getenv Conn Cursor rpa_new rpa_enter rpa_exit rpa_get_constant rpa_cursor
     cursor_set_fast_executemany cursor_execute cursor_executemany google_token).

Local Abbreviation load :=
  (load_emails World Conn rpa_enter rpa_exit rpa_get_constant).

Local Abbreviation upsert :=
  (upsert_rows World Conn Cursor rpa_enter rpa_exit rpa_cursor
     cursor_set_fast_executemany cursor_execute cursor_executemany).

(** Splits the goal on the result of every call of a block. *)
Ltac split_calls :=
  unfold ibind, icall, iwith, ilift, inet, iexecute, iexecutemany,
    iset_fast, iret, ifail;
  repeat
    (cbv beta iota zeta;
     match goal with
     | |- context [match ?x with _ => _ end] =>
         lazymatch x with
         | context [match _ with _ => _ end] => fail
         | _ => destruct x eqn:?
         end
     end);
  cbv beta iota zeta;
  let H := fresh "Hrun" in intros H; injection H as ? ? ?; subst.

Ltac trace_facts :=
  cbn [statements exit_excs net_events entered exited app].

Ltac not_in_trace :=
  let H := fresh in
  intros ? ? H; cbn [In app] in H;
  repeat (destruct H as [H|H]; [discriminate H|]);
  exact H.

Ltac executemany_in_trace :=
  let H := fresh in
  intros ? ? ? H; cbn [In app] in H;
  repeat (destruct H as [H|H];
          [first [discriminate H | injection H as <- <- <-; split; reflexivity]|]);
  contradiction.

Ltac pick_statements :=
  first
    [ solve [left; reflexivity]
    | solve [right; left; eexists; split; reflexivity]
    | solve [right; right; left; eexists; split; reflexivity]
    | solve [right; right; right; left; eexists; split; reflexivity]
    | solve [right; right; right; right; split; reflexivity] ].

Lemma load_emails_run rpa_conn w res w' tr :
  load rpa_conn w = (res, w', tr) ->
  statements tr = []
  /\ net_events tr = []
  /\ entered tr = exited tr
  /\ (forall db commit, ~ In (ItNew db commit) tr)
  /\ res <> StillFetching
  /\ (forall x, res = Done (Some x) -> exit_excs tr = [None])
  /\ (res = Done None ->
      exists e w0 w1, rpa_exit rpa_conn (Some e) w0 = (inr true, w1)).
Proof.
  unfold load_emails. split_calls.
  all: trace_facts;
    (split; [reflexivity|]); (split; [reflexivity|]); (split; [reflexivity|]);
    (split; [not_in_trace|]); (split; [discriminate|]);
    split; [intros x Hx; try discriminate; reflexivity
           | intros Hx; try discriminate; eauto].
Qed.

Lemma upsert_rows_run mgr rows w res w' tr :
  upsert mgr rows w = (res, w', tr) ->
  net_events tr = []
  /\ entered tr = exited tr
  /\ (forall db commit, ~ In (ItNew db commit) tr)
  /\ res <> StillFetching
  /\ (forall sql rows' r, In (ItExecuteMany sql rows' r) tr ->
        sql = insert_rows_sql /\ rows' = rows)
  /\ (statements tr = []
      \/ (exists e, statements tr = [ItExecute create_temp_table_sql (Some e)]
                    /\ exit_excs tr = [Some e])
      \/ (exists e, statements tr = [ItExecute create_temp_table_sql None;
                                     ItExecuteMany insert_rows_sql rows (Some e)]
                    /\ exit_excs tr = [Some e])
      \/ (exists e, statements tr = [ItExecute create_temp_table_sql None;
                                     ItExecuteMany insert_rows_sql rows None;
                                     ItExecute upsert_procedure_sql (Some e)]
                    /\ exit_excs tr = [Some e])
      \/ (statements tr = [ItExecute create_temp_table_sql None;
                           ItExecuteMany insert_rows_sql rows None;
                           ItExecute upsert_procedure_sql None]
          /\ exit_excs tr = [None]))
  /\ (forall x, res = Done (Some x) ->
        statements tr = [ItExecute create_temp_table_sql None;
                         ItExecuteMany insert_rows_sql rows None;
                         ItExecute upsert_procedure_sql None]
        /\ exit_excs tr = [None])
  /\ (res = Done None ->
      exists e w0 w1, rpa_exit mgr (Some e) w0 = (inr true, w1)).
Proof.
  unfold upsert_rows. split_calls.
  all: trace_facts;
    (split; [reflexivity|]); (split; [reflexivity|]);
    (split; [not_in_trace|]); (split; [discriminate|]);
    (split; [executemany_in_trace|]);
    (split; [pick_statements|]);
    split; [intros x Hx; try discriminate; split; reflexivity
           | intros Hx; try discriminate; eauto].
Qed.

(** Splits a run of [process_item] into its phases. *)
Ltac split_item :=
  unfold process_item, ibind, icall, ilift, inet, iret, ifail;
  repeat
    (cbv beta iota zeta;
     match goal with
     | |- context [match ?x with _ => _ end] =>
         lazymatch x with
         | context [match _ with _ => _ end] => fail
         | _ => destruct x eqn:?
         end
     end);
  cbv beta iota zeta;
  let H := fresh "Hrun" in
  intros H; first [discriminate H | injection H; intros; subst];
  repeat match goal with
    | H : load _ _ = _ |- _ =>
        apply load_emails_run in H;
        destruct H as (Hload_st & Hload_net & Hload_io & Hload_new & Hload_res
                       & Hload_ok & Hload_swallowed)
    | H : upsert _ _ _ = _ |- _ =>
        apply upsert_rows_run in H;
        destruct H as (Hup_net & Hup_io & Hup_new & Hup_res & Hup_many
                       & Hup_st & Hup_ok & Hup_swallowed)
    end.

Ltac trace_apps :=
  cbn [statements exit_excs net_events entered exited app];
  repeat
    (progress
       rewrite ?statements_app, ?statements_net, ?net_events_app, ?net_events_net,
         ?exit_excs_app, ?exit_excs_net, ?entered_app, ?entered_net,
         ?exited_app, ?exited_net, ?app_nil_r;
     cbn [statements exit_excs net_events entered exited app]).

(** X19. In every run of [process_item], each database session that was
    entered is exited once, whatever happened in between. *)
Theorem process_item_sessions_closed fuel item_data item_reference w res w' tr :
  item_run fuel item_data item_reference w = (res, w', tr) ->
  entered tr = exited tr.
Proof.
  split_item.
  all: trace_apps; rewrite ?Hload_io, ?Hup_io; try reflexivity; try lia.
Qed.

Lemma in_net_new db commit tr : ~ In (ItNew db commit) (map ItNet tr).
Proof. intros H. apply in_map_iff in H. destruct H as (x & Hx & _). discriminate. Qed.

Lemma in_net_executemany sql rows r tr : ~ In (ItExecuteMany sql rows r) (map ItNet tr).
Proof. intros H. apply in_map_iff in H. destruct H as (x & Hx & _). discriminate. Qed.

Lemma statements_nil_executemany sql rows r tr :
  statements tr = [] -> ~ In (ItExecuteMany sql rows r) tr.
Proof.
  induction tr as [|ev tr IH]; intros Hst Hin; [exact Hin|].
  destruct Hin as [-> | Hin]; [discriminate|].
  destruct ev; cbn [statements] in Hst; try discriminate; exact (IH Hst Hin).
Qed.

(** Splits a membership in a trace along its parts. *)
Ltac break_in H :=
  repeat match type of H with
    | In _ (_ :: _) => destruct H as [H|H]; [try discriminate H|]
    | In _ (_ ++ _) => apply in_app_or in H; destruct H as [H|H]
    | In _ [] => contradiction
    | In (ItNew _ _) (map ItNet _) => apply in_net_new in H; contradiction
    | In (ItExecuteMany _ _ _) (map ItNet _) => apply in_net_executemany in H; contradiction
    end.

(** X18. A falsy [item_data] or [item_reference] raises [AssertionError],
    and a [GOOGLE_DLP_KEY] that is unset or empty raises [RuntimeError]; in
    all three cases nothing outside was called: no database session, no
    token, no request. *)
Theorem process_item_guards fuel item_data item_reference w :
  (py_truthy item_data = false ->
   item_run fuel item_data item_reference w
   = (Failed (AssertionError "Item data is required"), w, []))
  /\ (py_truthy item_data = true -> py_truthy item_reference = false ->
      item_run fuel item_data item_reference w
      = (Failed (AssertionError "Item reference is required"), w, []))
  /\ (py_truthy item_data = true -> py_truthy item_reference = true ->
      os_getenv "GOOGLE_DLP_KEY" w = None \/ os_getenv "GOOGLE_DLP_KEY" w = Some "" ->
      item_run fuel item_data item_reference w
      = (Failed (PyExn (Exn RuntimeError
                          "Environment variable GOOGLE_DLP_KEY is not set")), w, [])).
Proof.
  unfold process_item. repeat split.
  - intros ->. reflexivity.
  - intros -> ->. reflexivity.
  - intros Hdata Hreference Hkey. rewrite Hdata, Hreference.
    cbv beta iota zeta delta [negb].
    destruct Hkey as [-> | ->]; reflexivity.
Qed.

(** X20. In every run of [process_item] the statements sent to the
    database are a beginning of: create the temp table, insert the rows in
    one [executemany], call the stored procedure.  A statement is sent only
    after the one before it succeeded (so the procedure never runs after a
    failed insert), and the exception of a failed statement is handed to
    [__exit__]. *)
Theorem process_item_statement_order fuel item_data item_reference w res w' tr :
  item_run fuel item_data item_reference w = (res, w', tr) ->
  exists rows, follows_protocol rows tr.
Proof.
  split_item.
  all: try (exists []; left; trace_apps; rewrite ?Hload_st; reflexivity).
  all: match goal with
       | H : context [ItExecuteMany insert_rows_sql ?rows _] |- _ => exists rows
       end;
    unfold follows_protocol; trace_apps; rewrite Hload_st; cbn [app];
    destruct Hup_st
      as [Hst | [(ex & Hst & Hex) | [(ex & Hst & Hex) | [(ex & Hst & Hex) | [Hst Hex]]]]];
    rewrite Hst, ?Hex;
    [ left; reflexivity
    | right; left; exists ex; split;
      [reflexivity | apply in_or_app; right; left; reflexivity]
    | right; right; left; exists ex; split;
      [reflexivity | apply in_or_app; right; left; reflexivity]
    | right; right; right; left; exists ex; split;
      [reflexivity | apply in_or_app; right; left; reflexivity]
    | right; right; right; right; reflexivity ].
Qed.

(** X21. The write session is opened only after the collector has
    returned and every device has been turned into a row: when
    [RPAConnection(db_env="PROD", commit=True)] appears in a run, the
    requests of that run are a run of [get_all_chromebooks] that returned,
    and every [executemany] of the run carries the rows of the devices it
    returned. *)
Theorem process_item_writes_after_fetch fuel item_data item_reference w res w' tr :
  item_run fuel item_data item_reference w = (res, w', tr) ->
  In (ItNew "PROD" true) tr ->
  exists token w0 w1 devices rows,
    get_all_chromebooks requests_get random_random time_sleep py_str fuel token w0
    = (Returned devices, w1, net_events tr)
    /\ process_item_rows fromisoformat devices [] = inr rows
    /\ forall sql rows' r,
        In (ItExecuteMany sql rows' r) tr -> sql = insert_rows_sql /\ rows' = rows.
Proof.
  intros Hrun Hin. revert Hrun. split_item.
  all: break_in Hin;
    try (exfalso; eapply Hload_new; eassumption);
    try (exfalso; eapply Hup_new; eassumption).
  all: match goal with
       | Hg : get_all_chromebooks _ _ _ _ _ ?token ?w0 = (Returned ?devices, ?w1, _),
         Hr : process_item_rows _ ?devices [] = inr ?rows |- _ =>
           exists token, w0, w1, devices, rows
       end;
    trace_apps; rewrite Hload_net, ?Hup_net, ?app_nil_r;
    (split; [assumption|]); (split; [assumption|]);
    intros sql rows' r Hmany; break_in Hmany;
    try (exfalso; eapply statements_nil_executemany; eassumption);
    eauto.
Qed.

(** X22. When [__exit__] never swallows an exception, a run of
    [process_item] that completes has fetched the whole inventory, has sent
    the three statements once each, all successful, with the rows of the
    fetched devices, and has handed no exception to either [__exit__]. *)
Theorem process_item_done fuel item_data item_reference w w' tr :
  (forall c e w0 b w1, rpa_exit c (Some e) w0 = (inr b, w1) -> b = false) ->
  item_run fuel item_data item_reference w = (Done tt, w', tr) ->
  exists token w0 w1 devices rows,
    get_all_chromebooks requests_get random_random time_sleep py_str fuel token w0
    = (Returned devices, w1, net_events tr)
    /\ process_item_rows fromisoformat devices [] = inr rows
    /\ statements tr = [ItExecute create_temp_table_sql None;
                        ItExecuteMany insert_rows_sql rows None;
                        ItExecute upsert_procedure_sql None]
    /\ exit_excs tr = [None; None].
Proof.
  intros Hexit. split_item.
  all: try match goal with a : option unit |- _ => destruct a as [[]|] end.
  all: try (exfalso;
            first [destruct (Hload_swallowed eq_refl) as (ex & wa & wb & Hsw)
                  |destruct (Hup_swallowed eq_refl) as (ex & wa & wb & Hsw)];
            apply Hexit in Hsw; discriminate).
  all: match goal with
       | Hg : get_all_chromebooks _ _ _ _ _ ?token ?w0 = (Returned ?devices, ?w1, _),
         Hr : process_item_rows _ ?devices [] = inr ?rows |- _ =>
           exists token, w0, w1, devices, rows
       end;
    destruct (Hup_ok _ eq_refl) as [Hst Hex];
    trace_apps; rewrite Hload_net, Hload_st, Hup_net, Hst, Hex, (Hload_ok _ eq_refl);
    cbn [app]; rewrite ?app_nil_r;
    repeat split; assumption.
Qed.

End ItemFacts.

(** * More of the code on concrete inputs *)

Lemma safe_request_unexpected_status_returned_witness :
  unexpected_status redirect_302 = true
  /\ run_safe_request sample_url [] 5 60 redirect_script
     = (Returned redirect_302,
        {| responses := [inr one_device_page]; jitters := [] |},
        [EvGet sample_url (inr unavailable_503); EvSleep (3 # 2);
         EvGet sample_url (inr redirect_302)]).
Proof.
  split; [reflexivity|].
  assert (Hrun : run_safe_request sample_url [] 5 60 redirect_script
                 = (fst (fst (run_safe_request sample_url [] 5 60 redirect_script)),
                    {| responses := [inr one_device_page]; jitters := [] |},
                    [EvGet sample_url (inr unavailable_503); EvSleep (3 # 2)]
                    ++ EvGet sample_url (inr redirect_302) :: []))
    by reflexivity.
  destruct (safe_request_unexpected_status_returned script script_get script_random
              script_sleep _ _ _ _ _ _ _ _ Hrun
              [EvGet sample_url (inr unavailable_503); EvSleep (3 # 2)]
              sample_url redirect_302 [] eq_refl eq_refl) as [_ Hres].
  rewrite Hrun at 1. rewrite Hres. reflexivity.
Defined.

Lemma safe_request_other_exception_propagates_witness :
  is_RequestException (Exn ValueError "Invalid header value") = false
  /\ run_safe_request sample_url [] 5 60 broken_script
     = (Raised (Exn ValueError "Invalid header value"),
        {| responses := [inr one_device_page]; jitters := [] |},
        [EvGet sample_url (inr unavailable_503); EvSleep (3 # 2);
         EvGet sample_url (inl (Exn ValueError "Invalid header value"))]).
Proof.
  split; [reflexivity|].
  assert (Hrun : run_safe_request sample_url [] 5 60 broken_script
                 = (fst (fst (run_safe_request sample_url [] 5 60 broken_script)),
                    {| responses := [inr one_device_page]; jitters := [] |},
                    [EvGet sample_url (inr unavailable_503); EvSleep (3 # 2)]
                    ++ EvGet sample_url (inl (Exn ValueError "Invalid header value")) :: []))
    by reflexivity.
  destruct (safe_request_other_exception_propagates script script_get script_random
              script_sleep _ _ _ _ _ _ _ _ Hrun
              [EvGet sample_url (inr unavailable_503); EvSleep (3 # 2)]
              sample_url (Exn ValueError "Invalid header value") [] eq_refl eq_refl)
    as [_ Hres].
  rewrite Hrun at 1. rewrite Hres. reflexivity.
Defined.

Lemma safe_request_no_attempts_witness :
  0 <= 0
  /\ run_safe_request sample_url [] 0 60 flaky_script
     = (Raised (Exn RuntimeError "safe_request() fell through unexpectedly"),
        flaky_script, []).
Proof.
  split; [lia|].
  apply (safe_request_no_attempts script script_get script_random script_sleep). lia.
Defined.

Lemma safe_request_returns_last_outcome_witness :
  retryable_response one_device_page = false
  /\ exists pre,
      get_outcomes (snd (run_safe_request sample_url [] 5 60 flaky_script))
      = pre ++ [inr one_device_page]
      /\ Forall (fun o => retryable o = true) pre.
Proof.
  apply (safe_request_returns_last_outcome script script_get script_random script_sleep
           sample_url [] 5 60 flaky_script one_device_page
           {| responses := []; jitters := [] |}).
  reflexivity.
Defined.


Lemma steady_random_in_range (w : script) : (0 <= fst (steady_random w) < 1)%Q.
Proof. unfold Qle, Qlt. simpl. lia. Qed.


Lemma safe_request_total_sleep_bound_witness :
  1 <= 5
  /\ (total_sleep (snd (safe_request script_get steady_random script_sleep
                          sample_url [] 5 60 five_down_script))
      <= inject_Z 19)%Q.
Proof.
  split; [lia|].
  apply (safe_request_total_sleep_bound script script_get steady_random script_sleep
           steady_random_in_range sample_url [] 5 60 five_down_script
           (fst (fst (safe_request script_get steady_random script_sleep
                        sample_url [] 5 60 five_down_script)))
           (snd (fst (safe_request script_get steady_random script_sleep
                        sample_url [] 5 60 five_down_script))));
    [lia | reflexivity].
Defined.

Lemma get_all_chromebooks_page_without_devices_witness :
  run_get_all_chromebooks 3 "token" not_found_script
  = (Raised (Exn IndexError "list index out of range"),
     {| responses := []; jitters := [] |},
     [EvGet base_url (inr not_found_404)]).
Proof.
  apply (get_all_chromebooks_page_without_devices script script_get script_random
           script_sleep script_str 2 (request_headers "token") [] PNone 1
           not_found_script not_found_404 _ _
           [("error", PDict [("code", PInt 404)])]);
    reflexivity.
Defined.


Lemma endless_get_is_endless (headers : headers_t) : endless_server endless_get headers.
Proof.
  intros url w. exists endless_page, w, (device "d1"), [], (PStr "next").
  repeat split.
Qed.


Lemma process_item_sessions_closed_witness :
  entered (snd (run_process_item 3 sample_item sample_reference insert_fails_world))
  = exited (snd (run_process_item 3 sample_item sample_reference insert_fails_world))
  /\ entered (snd (run_process_item 3 sample_item sample_reference insert_fails_world))
     = 2%nat.
Proof.
  split; [|reflexivity].
  apply (process_item_sessions_closed item_world iw_get iw_random iw_sleep script_str
           iso_subset iw_getenv bool unit iw_new iw_enter iw_exit iw_get_constant
           iw_cursor iw_set_fast iw_execute iw_executemany iw_token
           3 sample_item sample_reference insert_fails_world
           (fst (fst (run_process_item 3 sample_item sample_reference insert_fails_world)))
           (snd (fst (run_process_item 3 sample_item sample_reference insert_fails_world)))).
  reflexivity.
Defined.

Lemma process_item_guards_witness :
  py_truthy (PDict []) = false
  /\ run_process_item 3 (PDict []) sample_reference good_world
     = (Failed (AssertionError "Item data is required"), good_world, [])
  /\ py_truthy (PStr "") = false
  /\ run_process_item 3 sample_item (PStr "") good_world
     = (Failed (AssertionError "Item reference is required"), good_world, [])
  /\ iw_getenv "GOOGLE_DLP_KEY" no_key_world = None
  /\ run_process_item 3 sample_item sample_reference no_key_world
     = (Failed (PyExn (Exn RuntimeError
                         "Environment variable GOOGLE_DLP_KEY is not set")),
        no_key_world, []).
Proof.
  split; [reflexivity|]. split.
  - apply (proj1 (process_item_guards item_world iw_get iw_random iw_sleep script_str
                    iso_subset iw_getenv bool unit iw_new iw_enter iw_exit iw_get_constant
                    iw_cursor iw_set_fast iw_execute iw_executemany iw_token
                    3 (PDict []) sample_reference good_world)).
    reflexivity.
  - split; [reflexivity|]. split.
    + apply (proj1 (proj2 (process_item_guards item_world iw_get iw_random iw_sleep
                             script_str iso_subset iw_getenv bool unit iw_new iw_enter
                             iw_exit iw_get_constant iw_cursor iw_set_fast iw_execute
                             iw_executemany iw_token
                             3 sample_item (PStr "") good_world)));
        reflexivity.
    + split; [reflexivity|].
      apply (proj2 (proj2 (process_item_guards item_world iw_get iw_random iw_sleep
                             script_str iso_subset iw_getenv bool unit iw_new iw_enter
                             iw_exit iw_get_constant iw_cursor iw_set_fast iw_execute
                             iw_executemany iw_token
                             3 sample_item sample_reference no_key_world)));
        [reflexivity | reflexivity | left; reflexivity].
Defined.

Lemma process_item_statement_order_witness :
  exists rows,
    follows_protocol rows
      (snd (run_process_item 3 sample_item sample_reference insert_fails_world)).
Proof.
  apply (process_item_statement_order item_world iw_get iw_random iw_sleep script_str
           iso_subset iw_getenv bool unit iw_new iw_enter iw_exit iw_get_constant
           iw_cursor iw_set_fast iw_execute iw_executemany iw_token
           3 sample_item sample_reference insert_fails_world
           (fst (fst (run_process_item 3 sample_item sample_reference insert_fails_world)))
           (snd (fst (run_process_item 3 sample_item sample_reference insert_fails_world)))).
  reflexivity.
Defined.

Lemma process_item_writes_after_fetch_witness :
  In (ItNew "PROD" true)
     (snd (run_process_item 3 sample_item sample_reference insert_fails_world))
  /\ exists token w0 w1 devices rows,
      get_all_chromebooks iw_get iw_random iw_sleep script_str 3 token w0
      = (Returned devices, w1,
         net_events (snd (run_process_item 3 sample_item sample_reference
                            insert_fails_world)))
      /\ process_item_rows iso_subset devices [] = inr rows
      /\ forall sql rows' r,
          In (ItExecuteMany sql rows' r)
             (snd (run_process_item 3 sample_item sample_reference insert_fails_world)) ->
          sql = insert_rows_sql /\ rows' = rows.
Proof.
  assert (Hin : In (ItNew "PROD" true)
                  (snd (run_process_item 3 sample_item sample_reference
                          insert_fails_world))).
  { cbn. do 8 right. left. reflexivity. }
  split; [exact Hin|].
  apply (process_item_writes_after_fetch item_world iw_get iw_random iw_sleep script_str
           iso_subset iw_getenv bool unit iw_new iw_enter iw_exit iw_get_constant
           iw_cursor iw_set_fast iw_execute iw_executemany iw_token
           3 sample_item sample_reference insert_fails_world
           (fst (fst (run_process_item 3 sample_item sample_reference insert_fails_world)))
           (snd (fst (run_process_item 3 sample_item sample_reference insert_fails_world)))
           _ eq_refl Hin).
Defined.

Lemma iw_exit_never_swallows c e w0 b w1 :
  iw_exit c (Some e) w0 = (inr b, w1) -> b = false.
Proof. unfold iw_exit. intros H. injection H as <- _. reflexivity. Qed.

Lemma process_item_done_witness :
  exists token w0 w1 devices rows,
    get_all_chromebooks iw_get iw_random iw_sleep script_str 3 token w0
    = (Returned devices, w1,
       net_events (snd (run_process_item 3 sample_item sample_reference good_world)))
    /\ process_item_rows iso_subset devices [] = inr rows
    /\ statements (snd (run_process_item 3 sample_item sample_reference good_world))
       = [ItExecute create_temp_table_sql None;
          ItExecuteMany insert_rows_sql rows None;
          ItExecute upsert_procedure_sql None]
    /\ exit_excs (snd (run_process_item 3 sample_item sample_reference good_world))
       = [None; None].
Proof.
  apply (process_item_done item_world iw_get iw_random iw_sleep script_str
           iso_subset iw_getenv bool unit iw_new iw_enter iw_exit iw_get_constant
           iw_cursor iw_set_fast iw_execute iw_executemany iw_token
           3 sample_item sample_reference good_world
           (snd (fst (run_process_item 3 sample_item sample_reference good_world)))
           _ iw_exit_never_swallows eq_refl).
Defined.

Lemma process_item_rows_one_per_device_witness :
  Forall (fun d => is_dict d = true) [device "d1"; PDict sample_device]
  /\ exists rows,
      process_item_rows iso_subset [device "d1"; PDict sample_device] [] = inr ([] ++ rows)
      /\ Forall2 (fun d r => process_item_row iso_subset d = inr r)
           [device "d1"; PDict sample_device] rows.
Proof.
  assert (Hdicts : Forall (fun d => is_dict d = true) [device "d1"; PDict sample_device])
    by (repeat constructor).
  split; [exact Hdicts|].
  exact (process_item_rows_one_per_device iso_subset _ [] Hdicts).
Defined.


Lemma process_item_row_reads_seven_keys_witness :
  process_item_row iso_subset (PDict sample_device)
  = process_item_row iso_subset (PDict sample_device_reordered).
Proof.
  apply (process_item_row_reads_seven_keys iso_subset).
  intros k Hk. cbn [In] in Hk.
  repeat (destruct Hk as [<- | Hk]; [reflexivity|]). contradiction.
Defined.

Lemma process_item_row_device_id_witness :
  dict_lookup anonymous_device "deviceId" = None
  /\ exists r,
      process_item_row iso_subset (PDict anonymous_device) = inr r
      /\ device_id r = PNone.
Proof.
  split; [reflexivity|].
  destruct (process_item_row_device_id iso_subset anonymous_device)
    as (r & Hr & Hnone & _).
  exists r. split; [exact Hr | apply Hnone; reflexivity].
Defined.

Lemma str_contains_substring_witness :
  text rate_limited_403
  = ("{error: {errors: [{reason: " ++ rate_limit_marker ++ "}]}}")%string
  /\ str_contains rate_limit_marker (text rate_limited_403) = true.
Proof.
  split; [reflexivity|].
  apply (proj2 (str_contains_substring rate_limit_marker (text rate_limited_403))).
  exists "{error: {errors: [{reason: ", "}]}}". reflexivity.
Defined.

Lemma iso_subset_or_Z_agrees s :
  str_contains "Z" s = false -> iso_subset s = iso_subset_or_Z s.
Proof. intros H. unfold iso_subset_or_Z. rewrite H. reflexivity. Qed.

